(** * Text-to-SQL engine: a shallow embedding of [engine.py] and [formatters.py]

    The development follows the Python sources of the Windforest demo:
    - [PyDict]: insertion-ordered dictionaries, [dict(zip(columns, row))];
    - [Py]: Python values, truthiness, exceptions, and a small monad that
      threads a trace of external calls and carries raised exceptions;
    - [Engine]: [TextToSQLEngine] ([_load_schema], [process_query]);
    - [Formatters]: [format_cell_value] and
      [format_results_as_markdown_table]. *)

From Stdlib Require Import String Ascii List Bool ZArith NArith Lia.
From Stdlib Require Decimal DecimalString DecimalPos DecimalN DecimalZ.
From Stdlib Require Import SpecFloat.
Import ListNotations.

Local Open Scope string_scope.
Local Open Scope list_scope.

(** ** Insertion-ordered dictionaries with string keys *)

Module PyDict.

Section Dict.
Context {V : Type}.

(** A Python [dict] keeps its keys in insertion order; assigning to a key
    that is already present replaces the value and keeps the position. *)
Definition dict := list (string * V).

Definition keys (d : dict) : list string := map fst d.

Fixpoint get (d : dict) (k : string) : option V :=
  match d with
  | [] => None
  | (k', v) :: rest => if String.eqb k' k then Some v else get rest k
  end.

Definition contains (d : dict) (k : string) : bool :=
  match get d k with Some _ => true | None => false end.

(** [d[k] = v] *)
Fixpoint set (d : dict) (k : string) (v : V) : dict :=
  match d with
  | [] => [(k, v)]
  | (k', v') :: rest =>
      if String.eqb k' k then (k', v) :: rest else (k', v') :: set rest k v
  end.

(** [d.update(pairs)]: the pairs are inserted from left to right. *)
Definition insert_all (d : dict) (pairs : list (string * V)) : dict :=
  fold_left (fun d kv => set d (fst kv) (snd kv)) pairs d.

(** [dict(pairs)] *)
Definition of_pairs (pairs : list (string * V)) : dict :=
  insert_all [] pairs.

(** [dict(zip(columns, row))]; [zip] stops at the shorter sequence. *)
Definition of_zip (columns : list string) (row : list V) : dict :=
  of_pairs (combine columns row).

(** The binding that wins for [k] in a sequence of pairs: the last one. *)
Fixpoint last_binding (pairs : list (string * V)) (k : string) : option V :=
  match pairs with
  | [] => None
  | (k', v) :: rest =>
      match last_binding rest k with
      | Some v' => Some v'
      | None => if String.eqb k' k then Some v else None
      end
  end.

(** Keys of a sequence of pairs in order of first occurrence. *)
Fixpoint first_occurrences (ks : list string) : list string :=
  match ks with
  | [] => []
  | k :: rest =>
      k :: filter (fun k' => negb (String.eqb k k')) (first_occurrences rest)
  end.

End Dict.

Arguments dict V : clear implicits.

End PyDict.

(** ** Python values, exceptions and effects *)

Module Py.

(** Scalars: what the SQLite driver hands back in a row, and the leaves of
    a decoded JSON document.  Floats are IEEE doubles as [spec_float]. *)
Inductive atom : Type :=
| ANone
| ABool (b : bool)
| AInt (n : Z)
| AFloat (x : spec_float)
| AStr (s : string).

(** Values a decoded JSON document can take. *)
#[warnings="-register-all"]
Inductive value : Type :=
| VAtom (a : atom)
| VList (items : list value)
| VDict (entries : list (string * value)).

Definition VNone : value := VAtom ANone.
Definition VStr (s : string) : value := VAtom (AStr s).
Definition VInt (n : Z) : value := VAtom (AInt n).

(** [bool(x)] *)
Definition atom_truthy (a : atom) : bool :=
  match a with
  | ANone => false
  | ABool b => b
  | AInt n => negb (Z.eqb n 0)
  | AFloat (S754_zero _) => false
  | AFloat _ => true
  | AStr s => negb (String.eqb s "")
  end.

Definition truthy (v : value) : bool :=
  match v with
  | VAtom a => atom_truthy a
  | VList [] => false
  | VList (_ :: _) => true
  | VDict [] => false
  | VDict (_ :: _) => true
  end.

(** [type(x).__name__] *)
Definition type_name (v : value) : string :=
  match v with
  | VAtom ANone => "NoneType"
  | VAtom (ABool _) => "bool"
  | VAtom (AInt _) => "int"
  | VAtom (AFloat _) => "float"
  | VAtom (AStr _) => "str"
  | VList _ => "list"
  | VDict _ => "dict"
  end.

(** Exceptions.  The handlers of the engine tell three families apart:
    [json.JSONDecodeError], the other subclasses of [Exception], and the
    classes that derive from [BaseException] only ([KeyboardInterrupt],
    [SystemExit], [asyncio.CancelledError]). *)
Inductive exn_kind : Type :=
| KJSONDecodeError
| KException
| KBaseException.

Record exn : Type := mkExn {
  exn_class : exn_kind;
  exn_name : string;   (* class name, e.g. OperationalError *)
  exn_str : string     (* str(e) *)
}.

Definition isinstance_JSONDecodeError (e : exn) : bool :=
  match exn_class e with KJSONDecodeError => true | _ => false end.

Definition isinstance_Exception (e : exn) : bool :=
  match exn_class e with KBaseException => false | _ => true end.

Definition IndexError (msg : string) : exn := mkExn KException "IndexError" msg.
Definition AttributeError (msg : string) : exn :=
  mkExn KException "AttributeError" msg.
Definition ValueError (msg : string) : exn := mkExn KException "ValueError" msg.

Inductive result (A : Type) : Type :=
| Returns (a : A)
| Raises (e : exn).
Arguments Returns {A} a.
Arguments Raises {A} e.

(** Computations log the external calls they make, in order, and either
    return a value or raise. *)
Section Monad.
Context {Ev : Type}.

Definition M (A : Type) : Type := list Ev -> result A * list Ev.

Definition ret {A} (a : A) : M A := fun t => (Returns a, t).

Definition raise {A} (e : exn) : M A := fun t => (Raises e, t).

Definition bind {A B} (m : M A) (k : A -> M B) : M B :=
  fun t =>
    match m t with
    | (Returns a, t') => k a t'
    | (Raises e, t') => (Raises e, t')
    end.

(** A library call that has no effect of its own. *)
Definition lift {A} (outcome : result A) : M A := fun t => (outcome, t).

(** An external call: it is logged, then its outcome is the caller's. *)
Definition call {A} (ev : Ev) (outcome : result A) : M A :=
  fun t => (outcome, t ++ [ev]).

(** [try: body  except <class> as e: handler e] *)
Definition try_except {A} (body : M A) (catches : exn -> bool)
    (handler : exn -> M A) : M A :=
  fun t =>
    match body t with
    | (Returns a, t') => (Returns a, t')
    | (Raises e, t') => if catches e then handler e t' else (Raises e, t')
    end.

(** [with enter as r: body r]; the context manager's [__exit__] runs on
    every way out of the body and does not suppress the body's exception;
    when [__exit__] itself raises, that exception is the one seen. *)
Definition with_ {R A} (enter : M R) (exit : M unit) (body : R -> M A) : M A :=
  bind enter (fun r t =>
    match body r t with
    | (outcome, t') =>
        match exit t' with
        | (Returns _, t'') => (outcome, t'')
        | (Raises e', t'') => (Raises e', t'')
        end
    end).

End Monad.

Arguments M Ev A : clear implicits.

Declare Scope py_scope.
Delimit Scope py_scope with py.
Notation "x <- m ;; k" := (bind m (fun x => k))
  (at level 61, m at next level, right associativity) : py_scope.
Notation "m ;;; k" := (bind m (fun _ => k))
  (at level 61, right associativity) : py_scope.

End Py.

(** ** [engine.py]: the Text-to-SQL engine *)

Module Engine.
Import Py.
Local Open Scope py_scope.

(** *** The collaborators: completion client, JSON decoder, database *)

(** The request handed to [client.chat.completions.create]. *)
Record ToolProperty : Type := {
  prop_name : string;
  prop_type : string;
  prop_description : string
}.

Record Tool : Type := {
  tool_type : string;
  function_name : string;
  function_description : string;
  parameters_type : string;
  parameters_properties : list ToolProperty;
  parameters_required : list string;
  parameters_additionalProperties : bool
}.

Record ChatMessage : Type := {
  role : string;
  content : string
}.

Record Request : Type := {
  req_model : string;
  req_messages : list ChatMessage;
  req_tools : list Tool;
  req_tool_choice : string   (* name of the function that is forced *)
}.

(** The part of a chat completion that [process_query] reads:
    [completion.choices[i].message.tool_calls[j].function.arguments]. *)
Record ToolCall : Type := {
  function_arguments : string
}.

Record Message : Type := {
  tool_calls : option (list ToolCall)   (* [None] or a list *)
}.

Record Completion : Type := {
  choices : list Message
}.

(** A result object of the database layer: the rows the statement yields,
    in the order the database delivers them, its column names in projection
    order, and the error with which fetching fails, if it does (a statement
    that returns no rows). *)
Definition Row : Type := list atom.

Record CursorResult : Type := {
  all_rows : list Row;
  column_keys : list string;
  fetch_error : option exn
}.

(** Everything outside the engine that one [process_query] call touches.
    [connection_execute] stands for the line
    [connection.execute(text(sql_query))] as a whole: [text] refuses what is
    no string with [TypeError] before the driver sees a statement, and the
    driver runs what is a string. *)
Record World : Type := {
  now_strftime : string;
  chat_completions_create : Request -> result Completion;
  json_loads : string -> result value;
  engine_connect : result unit;
  connection_execute : value -> result CursorResult;
  connection_exit : result unit
}.

(** The calls that leave the engine.  [EvExecute sql] records that the line
    [connection.execute(text(sql_query))] was reached with [sql]. *)
Inductive event : Type :=
| EvChatCompletion (req : Request)
| EvConnect
| EvExecute (sql : value)
| EvFetchmany (size : nat)
| EvKeys
| EvClose.

(** The events of the trace that touch the database. *)
Definition is_db_event (ev : event) : bool :=
  match ev with
  | EvChatCompletion _ => false
  | _ => true
  end.

Definition is_execute_event (ev : event) : bool :=
  match ev with
  | EvExecute _ => true
  | _ => false
  end.

Definition is_model_event (ev : event) : bool :=
  match ev with
  | EvChatCompletion _ => true
  | _ => false
  end.

(** [result.fetchmany(size)] *)
Definition fetchmany (cur : CursorResult) (size : nat) : M event (list Row) :=
  call (EvFetchmany size)
    match fetch_error cur with
    | Some e => Raises e
    | None => Returns (firstn size (all_rows cur))
    end.

(** [result.keys()] *)
Definition keys (cur : CursorResult) : M event (list string) :=
  call EvKeys (Returns (column_keys cur)).

(** *** The engine object *)

Record TextToSQLEngine : Type := {
  model : string;
  schema : string
}.

Definition schema_text : string :=
"
        -- Database Schema

        CREATE TABLE customers (
            id INTEGER PRIMARY KEY,
            name TEXT,
            email TEXT,
            phone TEXT,
            address TEXT,
            segment TEXT,
            region TEXT,
            age INTEGER,
            gender TEXT,
            income_level REAL,
            clv REAL,
            account_creation_date DATE,
            preferred_contact_method TEXT,
            purchase_frequency TEXT,
            seasonal_preference TEXT,
            last_purchase_date DATE,
            avg_order_value REAL
        );

        CREATE TABLE employees (
            id INTEGER PRIMARY KEY,
            first_name TEXT,
            last_name TEXT,
            title TEXT,
            department TEXT,
            manager_id INTEGER,
            hire_date DATE,
            termination_date DATE,
            salary REAL,
            bonus REAL,
            commission REAL,
            kpi_score REAL,
            shift TEXT,
            level INTEGER,
            FOREIGN KEY(manager_id) REFERENCES employees(id)
        );

        CREATE TABLE suppliers (
            id INTEGER PRIMARY KEY,
            name TEXT,
            contact_name TEXT,
            address TEXT,
            rating REAL,
            location TEXT,
            contract_terms TEXT,
            relationship_length INTEGER
        );

        CREATE TABLE categories (
            id INTEGER PRIMARY KEY,
            name TEXT,
            parent_id INTEGER,
            popularity REAL,
            FOREIGN KEY(parent_id) REFERENCES categories(id)
        );

        CREATE TABLE authors (
            id INTEGER PRIMARY KEY,
            name TEXT
        );

        CREATE TABLE book_authors (
            book_id INTEGER,
            author_id INTEGER,
            PRIMARY KEY (book_id, author_id),
            FOREIGN KEY(book_id) REFERENCES books(id),
            FOREIGN KEY(author_id) REFERENCES authors(id)
        );

        CREATE TABLE customer_service_interactions (
            id INTEGER PRIMARY KEY,
            customer_id INTEGER,
            order_id INTEGER,
            interaction_date DATE,
            interaction_type TEXT,
            channel TEXT,
            priority TEXT,
            status TEXT,
            resolution_date DATE,
            satisfaction_score INTEGER,
            notes TEXT,
            employee_id INTEGER,
            FOREIGN KEY(customer_id) REFERENCES customers(id),
            FOREIGN KEY(order_id) REFERENCES orders(id),
            FOREIGN KEY(employee_id) REFERENCES employees(id)
        );

        CREATE TABLE book_categories (
            book_id INTEGER,
            category_id INTEGER,
            PRIMARY KEY (book_id, category_id),
            FOREIGN KEY(book_id) REFERENCES books(id),
            FOREIGN KEY(category_id) REFERENCES categories(id)
        );

        CREATE TABLE book_price_history (
            id INTEGER PRIMARY KEY,
            book_id INTEGER,
            price REAL,
            effective_date DATE,
            end_date DATE,
            change_reason TEXT,
            FOREIGN KEY(book_id) REFERENCES books(id)
        );

        CREATE TABLE books (
            id INTEGER PRIMARY KEY,
            title TEXT,
            isbn TEXT,
            format TEXT,
            language TEXT,
            price REAL,
            stock_level INTEGER,
            safety_stock INTEGER,
            reorder_point INTEGER,
            publication_date DATE,
            supplier_id INTEGER,
            FOREIGN KEY(supplier_id) REFERENCES suppliers(id)
        );

        CREATE TABLE shippers (
            id INTEGER PRIMARY KEY,
            name TEXT,
            phone TEXT,
            service_area TEXT,
            base_cost REAL,
            performance_rating REAL
        );

        CREATE TABLE orders (
            id INTEGER PRIMARY KEY,
            order_date DATE,
            status TEXT,
            shipping_method TEXT,
            payment_method TEXT,
            discount REAL,
            tax REAL,
            notes TEXT,
            customer_id INTEGER,
            employee_id INTEGER,
            shipper_id INTEGER,
            FOREIGN KEY(customer_id) REFERENCES customers(id),
            FOREIGN KEY(employee_id) REFERENCES employees(id),
            FOREIGN KEY(shipper_id) REFERENCES shippers(id)
        );

        CREATE TABLE order_items (
            id INTEGER PRIMARY KEY,
            order_id INTEGER,
            book_id INTEGER,
            quantity INTEGER,
            unit_price REAL,
            FOREIGN KEY(order_id) REFERENCES orders(id),
            FOREIGN KEY(book_id) REFERENCES books(id)
        );
        ".

(** [_load_schema(self)] *)
Definition _load_schema (self : TextToSQLEngine) : M event string :=
  let schema := schema_text in
  ret schema.

(** [os.getenv(name, default)] *)
Definition getenv_default (environ : string -> option string) (name : string)
    (default : string) : string :=
  match environ name with
  | Some v => v
  | None => default
  end.

(** [__init__(self)]: the client and the database handle it creates are the
    collaborators of [World]; what remains on the object is the model name
    and the schema text.  [create_engine] is SQLAlchemy's, which refuses a
    URL it cannot read. *)
Definition init (environ : string -> option string)
    (create_engine : string -> result unit) : M event TextToSQLEngine :=
  let api_key := environ "OPENAI_API_KEY" in
  match api_key with
  | None | Some "" =>
      raise (ValueError "OPENAI_API_KEY environment variable not set")
  | Some _ =>
      let db_path :=
        getenv_default environ "DATABASE_PATH" "sqlite:///data/windforest.db" in
      _ <- lift (create_engine db_path);;
      let model := getenv_default environ "OPENAI_MODEL" "gpt-4" in
      schema <- _load_schema {| model := model; schema := "" |};;
      ret {| model := model; schema := schema |}
  end.

(** *** [process_query] *)

Definition business_context : string :=
"
        Business Context:
        - Customers: Segmented into Retail, Wholesale, and VIP
          with varying purchase frequencies
        - Orders: Show seasonal patterns with peaks in November-December (holidays)
          and July-August (back to school)
        - Books: Managed with price history, categories, and multiple authors
        - Customer Service: Tracks interactions, satisfaction scores, and
          resolution times
        - Fraud Detection: Monitors for suspicious patterns like multiple
          same-day orders and unusual shipping
        - Inventory: Tracks stock levels, safety stock, and reorder points
        - Suppliers: Rated based on sales performance and stock management
        ".

Definition prompt_part0 : string :=
"
        You are an SQL expert.
        Convert the following business question into a precise SQLite query.
        Current date: ".

Definition prompt_part1 : string :=
"

        Database Schema:
        ".

Definition prompt_part2 : string :=
"

        ".

Definition prompt_part3 : string :=
"

        User Question: ".

Definition prompt_part4 : string :=
"

        Important:
        - Return only valid SQLite syntax
        - Use appropriate JOINs for table relationships
        - Consider data patterns and business rules
        - Limit results to 5 rows unless specified otherwise
        ".

Definition tools : list Tool :=
  [ {| tool_type := "function";
       function_name := "generate_sql_query";
       function_description :=
         "Generate an SQL query based on the user's " ++ "business question.";
       parameters_type := "object";
       parameters_properties :=
         [ {| prop_name := "rationale";
              prop_type := "string";
              prop_description :=
                "The reasoning behind the SQL query" ++ "construction." |};
           {| prop_name := "query";
              prop_type := "string";
              prop_description := "The SQL query to execute." |} ];
       parameters_required := ["query"; "rationale"];
       parameters_additionalProperties := false |} ].

Definition build_prompt (self : TextToSQLEngine) (current_date : string)
    (user_question : string) : string :=
  prompt_part0 ++ current_date ++ prompt_part1 ++ schema self ++ prompt_part2
  ++ business_context ++ prompt_part3 ++ user_question ++ prompt_part4.

Definition build_request (self : TextToSQLEngine) (prompt : string) : Request :=
  {| req_model := model self;
     req_messages :=
       [ {| role := "system";
            content := "You are an expert in converting business questions "
                       ++ "into SQL queries." |};
         {| role := "user"; content := prompt |} ];
     req_tools := tools;
     req_tool_choice := "generate_sql_query" |}.

(** The values of the dictionary that [process_query] returns. *)
Inductive envelope_value : Type :=
| EText (s : string)                       (* a string the engine formats *)
| EValue (v : value)                       (* what [arguments.get] gave *)
| ETable (rows : list (PyDict.dict atom)). (* [results_table] *)

Definition Envelope : Type := PyDict.dict envelope_value.

Definition error_envelope (msg : string) : Envelope := [("error", EText msg)].

(** [seq[0]] *)
Definition first_item {A} (seq : list A) : M event A :=
  match seq with
  | x :: _ => ret x
  | [] => raise (IndexError "list index out of range")
  end.

(** [obj.get(key)]: defined on dictionaries only. *)
Definition get_method (obj : value) (key : string) : M event value :=
  match obj with
  | VDict d =>
      ret match PyDict.get d key with
          | Some v => v
          | None => VNone
          end
  | _ =>
      raise (AttributeError
               ("'" ++ type_name obj ++ "' object has no attribute 'get'"))
  end.

(** The body of the innermost [try]: connect, execute, fetch, build the
    table. *)
Definition execute_and_fetch (w : World) (sql_query rationale : value)
    : M event Envelope :=
  fetched <-
    with_ (call EvConnect (engine_connect w)) (call EvClose (connection_exit w))
      (fun _ =>
         result <- call (EvExecute sql_query) (connection_execute w sql_query);;
         rows <- fetchmany result 5;;
         columns <- keys result;;
         ret (rows, columns));;
  let '(rows, columns) := fetched in
  let results_table := map (fun row => PyDict.of_zip columns row) rows in
  ret [ ("query", EValue sql_query);
        ("rationale", EValue rationale);
        ("results", ETable results_table) ].

Definition process_query (self : TextToSQLEngine) (w : World)
    (user_question : string) : M event Envelope :=
  let current_date := now_strftime w in
  let prompt := build_prompt self current_date user_question in
  try_except
    (completion <-
       (let req := build_request self prompt in
        call (EvChatCompletion req) (chat_completions_create w req));;
     message <- first_item (choices completion);;
     match tool_calls message with
     | Some (tool_call :: _) =>
         parsed <-
           try_except
             (arguments <- lift (json_loads w (function_arguments tool_call));;
              sql_query <- get_method arguments "query";;
              rationale <- get_method arguments "rationale";;
              ret (inr (sql_query, rationale)))
             isinstance_JSONDecodeError
             (fun e =>
                ret (inl (error_envelope
                            ("Failed to parse OpenAI response: " ++ exn_str e))));;
         match parsed with
         | inl envelope => ret envelope
         | inr (sql_query, rationale) =>
             if negb (truthy sql_query) || negb (truthy rationale) then
               ret (error_envelope "Missing query or rationale in the response")
             else
               try_except
                 (execute_and_fetch w sql_query rationale)
                 isinstance_Exception
                 (fun e =>
                    ret (error_envelope
                           ("SQL execution failed: " ++ exn_str e)))
         end
     | Some [] | None =>
         ret (error_envelope "No tool calls found in the response")
     end)
    isinstance_Exception
    (fun e => ret (error_envelope ("OpenAI API call failed: " ++ exn_str e))).

End Engine.

(** ** [formatters.py] *)

Module Formatters.
Import Py.
Local Open Scope string_scope.

Definition LF : string := String (ascii_of_nat 10) EmptyString.

(** *** The format specifications [","] and [",.2f"] *)

(** Decimal digits of a natural number, most significant first. *)
Definition digits_of (n : N) : list ascii :=
  list_ascii_of_string (DecimalString.NilEmpty.string_of_uint (N.to_uint n)).

Definition comma : ascii := ","%char.

(** Digits least significant first, a comma after every complete group of
    three that is followed by more digits. *)
Fixpoint group_rev (ds : list ascii) : list ascii :=
  match ds with
  | a :: b :: c :: rest =>
      match rest with
      | [] => [a; b; c]
      | _ :: _ => a :: b :: c :: comma :: group_rev rest
      end
  | _ => ds
  end.

Definition thousands (ds : list ascii) : list ascii :=
  rev (group_rev (rev ds)).

Definition grouped (n : N) : string :=
  string_of_list_ascii (thousands (digits_of n)).

Definition sign_text (negative : bool) : string :=
  if negative then "-" else "".

(** [f"{value:,}"] for an [int] that the interpreter converts to text:
    CPython refuses the conversion of an [int] of more than 4300 decimal
    digits with [ValueError].  The properties of integer cells below are
    stated for integers within that limit ([Rendering.int_within_limit]). *)
Definition format_int (n : Z) : string :=
  sign_text (Z.ltb n 0) ++ grouped (Z.abs_N n).

(** The integer nearest to [num / den], ties to the even one. *)
Definition round_half_even (num den : N) : N :=
  let q := N.div num den in
  let r := N.modulo num den in
  match N.compare (2 * r) den with
  | Lt => q
  | Gt => N.succ q
  | Eq => if N.even q then q else N.succ q
  end.

(** [100 * m * 2^e] rounded to an integer: the magnitude in hundredths. *)
Definition hundredths (m : positive) (e : Z) : N :=
  match e with
  | Zneg p => round_half_even (N.pos m * 100) (2 ^ N.pos p)
  | _ => N.pos m * 2 ^ Z.to_N e * 100
  end.

Definition digit_char (d : N) : ascii := ascii_of_N (48 + d).

Definition two_digits (k : N) : string :=
  String (digit_char (N.div k 10)) (String (digit_char (N.modulo k 10)) "").

(** [f"{value:,.2f}"] for a [float] *)
Definition format_float (x : spec_float) : string :=
  match x with
  | S754_nan => "nan"
  | S754_infinity s => sign_text s ++ "inf"
  | S754_zero s => sign_text s ++ "0.00"
  | S754_finite s m e =>
      let h := hundredths m e in
      sign_text s ++ grouped (N.div h 100) ++ "." ++ two_digits (N.modulo h 100)
  end.

(** [format_cell_value(value)]; [bool] is a subclass of [int], so
    [isinstance(value, int)] holds for [True] and [False]; what is left for
    [str(value)] is [None] and the strings. *)
Definition format_cell_value (value : atom) : string :=
  match value with
  | AFloat x => format_float x
  | AInt n => format_int n
  | ABool b => format_int (if b then 1 else 0)
  | ANone => "None"
  | AStr s => s
  end.

(** *** [format_results_as_markdown_table] *)

Inductive rendering : Type :=
| Rendered (text : string)
| KeyError (key : string).   (* [row[col]] on a row without [col] *)

(** [format_cell_value(row[col]) for col in headers] *)
Fixpoint format_cells (row : PyDict.dict atom) (headers : list string)
    : list string + string :=
  match headers with
  | [] => inl []
  | col :: rest =>
      match PyDict.get row col with
      | None => inr col
      | Some value =>
          match format_cells row rest with
          | inl cells => inl (format_cell_value value :: cells)
          | inr key => inr key
          end
      end
  end.

Definition table_line (cells : list string) : string :=
  "| " ++ String.concat " | " cells ++ " |" ++ LF.

(** The loop [for row in results: table += ...] *)
Fixpoint add_rows (table : string) (headers : list string)
    (results : list (PyDict.dict atom)) : rendering :=
  match results with
  | [] => Rendered table
  | row :: rest =>
      match format_cells row headers with
      | inl cells => add_rows (table ++ table_line cells) headers rest
      | inr key => KeyError key
      end
  end.

Definition format_results_as_markdown_table
    (results : list (PyDict.dict atom)) : rendering :=
  match results with
  | [] => Rendered (LF ++ "**Results:** No results found.")
  | first :: _ =>
      let headers := PyDict.keys first in
      let table := table_line headers in
      let table := table ++ table_line (map (fun _ => "---") headers) in
      match add_rows table headers results with
      | Rendered table => Rendered (LF ++ "**Results:**" ++ LF ++ table)
      | KeyError key => KeyError key
      end
  end.

End Formatters.

(** ** The contract of [process_query], in the words of the specification *)

Module Contract.
Import Py Engine.

(** The request [process_query] sends for a question. *)
Definition request_of (self : TextToSQLEngine) (w : World)
    (user_question : string) : Request :=
  build_request self (build_prompt self (now_strftime w) user_question).

(** The two shapes of an envelope. *)
Inductive envelope_shape : Envelope -> Prop :=
| ErrorShape (msg : string) :
    envelope_shape [("error", EText msg)]
| SuccessShape (query rationale : value) (results : list (PyDict.dict atom)) :
    envelope_shape [ ("query", EValue query);
                     ("rationale", EValue rationale);
                     ("results", ETable results) ].

Definition has_error (envelope : Envelope) : bool :=
  PyDict.contains envelope "error".

Definition has_all_success_keys (envelope : Envelope) : bool :=
  PyDict.contains envelope "query" && PyDict.contains envelope "rationale"
  && PyDict.contains envelope "results".

Definition has_some_success_key (envelope : Envelope) : bool :=
  PyDict.contains envelope "query" || PyDict.contains envelope "rationale"
  || PyDict.contains envelope "results".

(** The envelopes of the error taxonomy. *)
Definition ApiFailure (detail : string) : Envelope :=
  [("error", EText ("OpenAI API call failed: " ++ detail))].
Definition NoToolCall : Envelope :=
  [("error", EText "No tool calls found in the response")].
Definition MalformedArguments (detail : string) : Envelope :=
  [("error", EText ("Failed to parse OpenAI response: " ++ detail))].
Definition IncompleteResult : Envelope :=
  [("error", EText "Missing query or rationale in the response")].
Definition QueryFailed (detail : string) : Envelope :=
  [("error", EText ("SQL execution failed: " ++ detail))].

(** The model answered with a message, the first of its choices. *)
Definition model_message (self : TextToSQLEngine) (w : World)
    (user_question : string) (message : Message) : Prop :=
  exists completion others,
    chat_completions_create w (request_of self w user_question)
      = Returns completion /\
    choices completion = message :: others.

(** The first tool call of a message. *)
Definition first_tool_call (message : Message) (tool_call : ToolCall) : Prop :=
  exists others, tool_calls message = Some (tool_call :: others).

(** A message without tool calls: the attribute is [None] or empty. *)
Definition zero_tool_calls (message : Message) : Prop :=
  tool_calls message = None \/ tool_calls message = Some [].

(** The model answered with a tool call whose arguments decode to the
    dictionary [payload]. *)
Definition parsed_payload (self : TextToSQLEngine) (w : World)
    (user_question : string) (payload : PyDict.dict value) : Prop :=
  exists message tool_call,
    model_message self w user_question message /\
    first_tool_call message tool_call /\
    json_loads w (function_arguments tool_call) = Returns (VDict payload).

(** What [arguments.get(field)] gives on a decoded dictionary. *)
Definition field_of (payload : PyDict.dict value) (field : string) : value :=
  match PyDict.get payload field with
  | Some v => v
  | None => VNone
  end.

(** Something other than a dictionary. *)
Definition not_a_dict (v : value) : Prop :=
  match v with
  | VDict _ => False
  | _ => True
  end.

(** A field of the payload is missing ([null] counts as missing) or is the
    empty string. *)
Definition empty_or_missing (payload : PyDict.dict value) (field : string)
    : Prop :=
  PyDict.get payload field = None \/
  PyDict.get payload field = Some VNone \/
  PyDict.get payload field = Some (VStr "").

(** Both fields pass the validation [if not sql_query or not rationale]. *)
Definition complete_payload (payload : PyDict.dict value) : Prop :=
  truthy (field_of payload "query") = true /\
  truthy (field_of payload "rationale") = true.

(** The database layer raises [e] somewhere on the way of executing
    [sql_query]: when connecting, when executing the statement, when
    fetching, or when the connection is given back. *)
Inductive db_failure (w : World) (sql_query : value) (e : exn) : Prop :=
| ConnectFails :
    engine_connect w = Raises e ->
    db_failure w sql_query e
| ExecuteFails :
    engine_connect w = Returns tt ->
    connection_execute w sql_query = Raises e ->
    connection_exit w = Returns tt ->
    db_failure w sql_query e
| FetchFails (result : CursorResult) :
    engine_connect w = Returns tt ->
    connection_execute w sql_query = Returns result ->
    fetch_error result = Some e ->
    connection_exit w = Returns tt ->
    db_failure w sql_query e
| ExitFails :
    engine_connect w = Returns tt ->
    connection_exit w = Raises e ->
    db_failure w sql_query e.

(** The statement is executed and its rows are fetched without an error. *)
Definition execution_succeeds (w : World) (sql_query : value)
    (result : CursorResult) : Prop :=
  engine_connect w = Returns tt /\
  connection_execute w sql_query = Returns result /\
  fetch_error result = None /\
  connection_exit w = Returns tt.


(** [e] is what some collaborator raises. *)
Definition raised_by_collaborator (w : World) (e : exn) : Prop :=
  (exists req, chat_completions_create w req = Raises e) \/
  (exists text, json_loads w text = Raises e) \/
  engine_connect w = Raises e \/
  (exists sql, connection_execute w sql = Raises e) \/
  (exists sql result, connection_execute w sql = Returns result /\
                      fetch_error result = Some e) \/
  connection_exit w = Raises e.

(** The database calls of a run in which the database layer fails: the
    statement is executed at most once. *)
Definition db_trace_of_failure (sql_query : value) (t_db : list event)
    : Prop :=
  t_db = [EvConnect] \/
  t_db = [EvConnect; EvExecute sql_query; EvClose] \/
  t_db = [EvConnect; EvExecute sql_query; EvFetchmany 5; EvClose] \/
  t_db = [EvConnect; EvExecute sql_query; EvFetchmany 5; EvKeys; EvClose].

(** The envelope of a run in which every stage succeeds. *)
Definition success_envelope (payload : PyDict.dict value)
    (result : CursorResult) : Envelope :=
  [ ("query", EValue (field_of payload "query"));
    ("rationale", EValue (field_of payload "rationale"));
    ("results",
      ETable (map (PyDict.of_zip (column_keys result))
                (firstn 5 (all_rows result)))) ].

(** The ways a run of [process_query] can end: with an error envelope,
    with the success envelope after every stage succeeded, or by letting
    through what a collaborator raised and no handler catches. *)
Inductive run_end (self : TextToSQLEngine) (w : World)
    (user_question : string) : result Envelope -> Prop :=
| EndError (msg : string) :
    run_end self w user_question (Returns [("error", EText msg)])
| EndSuccess payload result :
    parsed_payload self w user_question payload ->
    complete_payload payload ->
    execution_succeeds w (field_of payload "query") result ->
    run_end self w user_question (Returns (success_envelope payload result))
| EndRaise e :
    isinstance_Exception e = false ->
    raised_by_collaborator w e ->
    run_end self w user_question (Raises e).

(** The number of times the trace executes a statement, and the number of
    database calls in it. *)
Definition executions (trace : list event) : nat :=
  length (filter is_execute_event trace).

Definition db_calls (trace : list event) : list event :=
  filter is_db_event trace.

Definition model_calls (trace : list event) : nat :=
  length (filter is_model_event trace).

End Contract.

(** ** Concrete runs *)

Module Scenarios.
Import Py Engine.

Definition dq : string := String (ascii_of_nat 34) EmptyString.
Definition quoted (s : string) : string := dq ++ s ++ dq.

Definition engine : TextToSQLEngine :=
  {| model := "gpt-4"; schema := schema_text |}.

Definition JSONDecodeError (msg : string) : exn :=
  mkExn KJSONDecodeError "JSONDecodeError" msg.
Definition OperationalError (msg : string) : exn :=
  mkExn KException "OperationalError" msg.
Definition APITimeoutError (msg : string) : exn :=
  mkExn KException "APITimeoutError" msg.
Definition CancelledError : exn :=
  mkExn KBaseException "CancelledError" "".

Definition top_customers_sql : string :=
  "SELECT name, clv FROM customers ORDER BY clv DESC".
Definition missing_table_sql : string := "SELECT * FROM nonexistent_table".
Definition duplicate_sql : string :=
  "SELECT c.id, o.id FROM customers c JOIN orders o ON o.customer_id = c.id".

(** Argument texts of tool calls. *)
Definition payload_text (query rationale : string) : string :=
  "{" ++ quoted "query" ++ ": " ++ quoted query ++ ", "
  ++ quoted "rationale" ++ ": " ++ quoted rationale ++ "}".

Definition top_customers_arguments : string :=
  payload_text top_customers_sql "Rank customers by lifetime value".
Definition missing_table_arguments : string :=
  payload_text missing_table_sql "List everything".
Definition empty_query_arguments : string :=
  payload_text "" "Nothing to run".
Definition array_arguments : string := "[1, 2]".
Definition number_fields_arguments : string :=
  "{" ++ quoted "query" ++ ": 5, " ++ quoted "rationale" ++ ": 7}".
Definition truncated_arguments : string := "{" ++ quoted "query" ++ ": ".

Definition payload (query rationale : string) : value :=
  VDict [("query", VStr query); ("rationale", VStr rationale)].

(** [json.loads] on the argument texts above. *)
Definition json_loads (text : string) : result value :=
  if String.eqb text top_customers_arguments then
    Returns (payload top_customers_sql "Rank customers by lifetime value")
  else if String.eqb text missing_table_arguments then
    Returns (payload missing_table_sql "List everything")
  else if String.eqb text empty_query_arguments then
    Returns (payload "" "Nothing to run")
  else if String.eqb text array_arguments then
    Returns (VList [VInt 1; VInt 2])
  else if String.eqb text number_fields_arguments then
    Returns (VDict [("query", VInt 5); ("rationale", VInt 7)])
  else if String.eqb text truncated_arguments then
    Raises (JSONDecodeError "Expecting value: line 1 column 11 (char 10)")
  else
    Raises (JSONDecodeError "Expecting value: line 1 column 1 (char 0)").

(** A [customers] table of seven rows, by decreasing [clv]. *)
Definition money (cents : positive) : atom :=
  AFloat (S754_finite false cents (-2)).

Definition customers_by_clv : list Row :=
  [ [AStr "Ada"; money 40000]; [AStr "Ben"; money 36002];
    [AStr "Cyd"; money 30000]; [AStr "Dee"; money 20001];
    [AStr "Eli"; money 16000]; [AStr "Fay"; money 8000];
    [AStr "Gus"; money 4] ].

(** The database: the rows of the statements it knows, an error for a
    table it does not have, and a type error for text that is no string. *)
Definition connection_execute (sql : value) : result CursorResult :=
  match sql with
  | VAtom (AStr statement) =>
      if String.eqb statement top_customers_sql then
        Returns {| all_rows := customers_by_clv;
                   column_keys := ["name"; "clv"];
                   fetch_error := None |}
      else if String.eqb statement duplicate_sql then
        Returns {| all_rows := [[AInt 1; AInt 10]; [AInt 1; AInt 11]];
                   column_keys := ["id"; "id"];
                   fetch_error := None |}
      else
        Raises (OperationalError
                  "(sqlite3.OperationalError) no such table: nonexistent_table")
  | _ =>
      Raises (mkExn KException "TypeError"
                "expected string or bytes-like object, got 'int'")
  end.

Definition tool_call_completion (arguments : string) : Completion :=
  {| choices :=
       [ {| tool_calls := Some [ {| function_arguments := arguments |} ] |} ] |}.

Definition no_tool_call_completion : Completion :=
  {| choices := [ {| tool_calls := None |} ] |}.

(** The world in which the model gives [outcome]. *)
Definition world (outcome : result Completion) : World :=
  {| now_strftime := "2026-01-15";
     chat_completions_create := fun _ => outcome;
     Engine.json_loads := json_loads;
     engine_connect := Returns tt;
     Engine.connection_execute := connection_execute;
     connection_exit := Returns tt |}.

Definition question : string :=
  "Who are our top 5 customers by lifetime value?".

(** The model asks for all customers by decreasing [clv]. *)
Definition top_customers_world : World :=
  world (Returns (tool_call_completion top_customers_arguments)).

Definition top_customers_cursor : CursorResult :=
  {| all_rows := customers_by_clv;
     column_keys := ["name"; "clv"];
     fetch_error := None |}.

Definition top_customers_envelope : Envelope :=
  [ ("query", EValue (VStr top_customers_sql));
    ("rationale", EValue (VStr "Rank customers by lifetime value"));
    ("results",
      ETable [ [("name", AStr "Ada"); ("clv", money 40000)];
               [("name", AStr "Ben"); ("clv", money 36002)];
               [("name", AStr "Cyd"); ("clv", money 30000)];
               [("name", AStr "Dee"); ("clv", money 20001)];
               [("name", AStr "Eli"); ("clv", money 16000)] ]) ].

(** The model asks for a table that does not exist. *)
Definition missing_table_world : World :=
  world (Returns (tool_call_completion missing_table_arguments)).

(** The model answers with an empty [query]. *)
Definition empty_query_world : World :=
  world (Returns (tool_call_completion empty_query_arguments)).

(** The arguments of the tool call are a JSON array. *)
Definition array_world : World :=
  world (Returns (tool_call_completion array_arguments)).

(** The fields of the payload are numbers. *)
Definition number_fields_world : World :=
  world (Returns (tool_call_completion number_fields_arguments)).

(** The arguments of the tool call break off. *)
Definition truncated_world : World :=
  world (Returns (tool_call_completion truncated_arguments)).

(** The model answers in prose, without a tool call. *)
Definition no_tool_call_world : World :=
  world (Returns no_tool_call_completion).

(** The completion service times out. *)
Definition timeout_world : World :=
  world (Raises (APITimeoutError "Request timed out.")).

(** The task that runs the request is cancelled while it waits for the
    model. *)
Definition cancelled_world : World := world (Raises CancelledError).

End Scenarios.

(** ** What a rendered table is, in the words of the specification *)

Module Rendering.
Import Py Formatters.
Local Open Scope string_scope.

Definition is_digit (c : ascii) : bool :=
  (48 <=? N_of_ascii c)%N && (N_of_ascii c <=? 57)%N.

(** [text] is [plain] with thousands separators: a leading group of one to
    three characters, then groups of exactly three, each after a comma. *)
Inductive thousands_separated : list ascii -> list ascii -> Prop :=
| LeadingGroup (group : list ascii) :
    (1 <= length group <= 3)%nat ->
    thousands_separated group group
| NextGroup (text plain group : list ascii) :
    thousands_separated text plain ->
    length group = 3%nat ->
    thousands_separated (text ++ comma :: group) (plain ++ group).

(** The same, read from the least significant digit. *)
Inductive separated_rev : list ascii -> list ascii -> Prop :=
| LastGroup (group : list ascii) :
    (1 <= length group <= 3)%nat ->
    separated_rev group group
| EarlierGroup (group text plain : list ascii) :
    length group = 3%nat ->
    separated_rev text plain ->
    separated_rev (group ++ comma :: text) (group ++ plain).

(** [h] is a nearest integer to [100 * m * 2^e]. *)
Definition nearest_hundredths (m : positive) (e : Z) (h : N) : Prop :=
  match e with
  | Zneg p =>
      (2 * h * 2 ^ N.pos p <= 2 * (N.pos m * 100) + 2 ^ N.pos p)%N /\
      (2 * (N.pos m * 100) <= 2 * h * 2 ^ N.pos p + 2 ^ N.pos p)%N
  | _ => h = (N.pos m * 2 ^ Z.to_N e * 100)%N
  end.

(** How a cell is shown. *)
Inductive cell_rendering : atom -> string -> Prop :=
| FiniteFloatCell (s : bool) (m : positive) (e : Z) (h : N)
    (integer_part : list ascii) (d1 d2 : ascii) :
    nearest_hundredths m e h ->
    thousands_separated integer_part (digits_of (N.div h 100)) ->
    is_digit d1 = true -> is_digit d2 = true ->
    N_of_ascii d1 = (48 + N.div (N.modulo h 100) 10)%N ->
    N_of_ascii d2 = (48 + N.modulo (N.modulo h 100) 10)%N ->
    cell_rendering (AFloat (S754_finite s m e))
      (sign_text s ++ string_of_list_ascii integer_part ++ "."
       ++ String d1 (String d2 ""))
| ZeroFloatCell (s : bool) :
    cell_rendering (AFloat (S754_zero s)) (sign_text s ++ "0.00")
| InfiniteFloatCell (s : bool) :
    cell_rendering (AFloat (S754_infinity s)) (sign_text s ++ "inf")
| NanFloatCell :
    cell_rendering (AFloat S754_nan) "nan"
| IntCell (n : Z) (text : list ascii) :
    thousands_separated text (digits_of (Z.abs_N n)) ->
    cell_rendering (AInt n) (sign_text (Z.ltb n 0) ++ string_of_list_ascii text)
| BoolCell (b : bool) :
    cell_rendering (ABool b) (if b then "1" else "0")
| NoneCell :
    cell_rendering ANone "None"
| StrCell (s : string) :
    cell_rendering (AStr s) s.

(** The interpreter's limit on the decimal digits of an [int] that is
    converted to text ([sys.int_info.default_max_str_digits]); a longer one
    makes [f"{value:,}"] raise [ValueError]. *)
Definition max_str_digits : Z := 4300.

Definition int_within_limit (n : Z) : Prop :=
  (Z.abs n < 10 ^ max_str_digits)%Z.

(** Every integer cell is within the limit. *)
Definition cells_within_limit (results : list (PyDict.dict atom)) : Prop :=
  forall row col n,
    In row results -> PyDict.get row col = Some (AInt n) ->
    int_within_limit n.

(** Every row has a value under every header. *)
Definition rows_have (headers : list string)
    (results : list (PyDict.dict atom)) : Prop :=
  forall row col, In row results -> In col headers ->
                  PyDict.get row col <> None.

(** [row[col]] where the row has the column. *)
Definition value_at (row : PyDict.dict atom) (col : string) : atom :=
  match PyDict.get row col with
  | Some value => value
  | None => ANone
  end.

(** A markdown table: a line of headers, a line of dashes, one line for
    each row of cells. *)
Definition markdown_line (cells : list string) : string :=
  "| " ++ String.concat " | " cells ++ " |" ++ LF.

Definition markdown_table (headers : list string) (body : list (list string))
    : string :=
  markdown_line headers
  ++ markdown_line (map (fun _ => "---") headers)
  ++ String.concat "" (map markdown_line body).

Definition cells_of (headers : list string) (row : PyDict.dict atom)
    : list string :=
  map (fun col => format_cell_value (value_at row col)) headers.

(** Result lists used in the examples. *)
Definition infinity : atom := AFloat (S754_infinity false).

Definition overflow_results : list (PyDict.dict atom) :=
  [ [("x", infinity)] ].

Definition uneven_results : list (PyDict.dict atom) :=
  [ [("a", AInt 1)]; [("b", AInt 2)] ].

Definition sales_results : list (PyDict.dict atom) :=
  [ [ ("name", AStr "Ada"); ("orders", AInt 1234567);
      ("clv", AFloat (S754_finite false 9876543 (-3))); ("note", ANone) ];
    [ ("name", AStr "Ben"); ("orders", AInt (-12));
      ("clv", AFloat (S754_zero true)); ("note", AStr "new") ] ].

End Rendering.

(** ** [formatters.py]: [wrap_sql] *)

Module WrapSql.
Import Formatters.
Local Open Scope string_scope.

(** A character of a string stands for one code point below 256.  These
    are the ones [str.split()] treats as whitespace. *)
Definition is_space (c : ascii) : bool :=
  let n := N_of_ascii c in
  ((9 <=? n) && (n <=? 13) || (28 <=? n) && (n <=? 32)
   || (n =? 133) || (n =? 160))%N.

(** [s.split()]: the maximal runs of characters that are not whitespace.
    [word] is the run being read. *)
Fixpoint split_from (s word : string) : list string :=
  match s with
  | EmptyString =>
      match word with
      | EmptyString => []
      | _ => [word]
      end
  | String c rest =>
      if is_space c then
        match word with
        | EmptyString => split_from rest ""
        | _ => word :: split_from rest ""
        end
      else split_from rest (word ++ String c "")
  end.

Definition split (s : string) : list string := split_from s "".

Definition len (s : string) : Z := Z.of_nat (String.length s).

Record wrap_state : Type := {
  lines : list string;
  current_line : list string;
  current_length : Z
}.

(** One turn of the loop [for word in words]. *)
Definition wrap_step (width : Z) (st : wrap_state) (word : string)
    : wrap_state :=
  if (current_length st + len word + 1 <=? width)%Z then
    {| lines := lines st;
       current_line := current_line st ++ [word];
       current_length := current_length st + (len word + 1) |}
  else
    {| lines := lines st ++ [String.concat " " (current_line st)];
       current_line := [word];
       current_length := len word |}.

Definition wrap_start : wrap_state :=
  {| lines := []; current_line := []; current_length := 0 |}.

(** The list [lines] that is joined at the end. *)
Definition wrap_finish (st : wrap_state) : list string :=
  match current_line st with
  | [] => lines st
  | _ :: _ => lines st ++ [String.concat " " (current_line st)]
  end.

Definition wrap_lines (sql : string) (width : Z) : list string :=
  wrap_finish (fold_left (wrap_step width) (split sql) wrap_start).

Definition wrap_sql (sql : string) (width : Z) : string :=
  String.concat LF (wrap_lines sql width).

Definition default_width : Z := 60.

(** The same loop with the words of each line kept apart. *)
Record group_state : Type := {
  groups : list (list string);
  group : list string;
  group_length : Z
}.

Definition group_step (width : Z) (st : group_state) (word : string)
    : group_state :=
  if (group_length st + len word + 1 <=? width)%Z then
    {| groups := groups st;
       group := group st ++ [word];
       group_length := group_length st + (len word + 1) |}
  else
    {| groups := groups st ++ [group st];
       group := [word];
       group_length := len word |}.

Definition group_start : group_state :=
  {| groups := []; group := []; group_length := 0 |}.

Definition group_finish (st : group_state) : list (list string) :=
  match group st with
  | [] => groups st
  | _ :: _ => groups st ++ [group st]
  end.

Definition wrap_groups (words : list string) (width : Z) : list (list string) :=
  group_finish (fold_left (group_step width) words group_start).

(** The two loops go in step. *)
Definition same_state (st : wrap_state) (gst : group_state) : Prop :=
  lines st = map (String.concat " ") (groups gst) /\
  current_line st = group gst /\
  current_length st = group_length gst.

(** A line that is within the width, or that could not be cut: no word, or
    a single word. *)
Definition line_fits (width : Z) (words : list string) : Prop :=
  words = [] \/ (exists word, words = [word]) \/
  (len (String.concat " " words) <= width)%Z.

(** What the loop keeps true of the line it is filling. *)
Definition filling (width : Z) (gst : group_state) : Prop :=
  (group gst = [] /\ group_length gst = 0%Z) \/
  (group gst <> [] /\
   (len (String.concat " " (group gst)) <= group_length gst)%Z /\
   ((exists word, group gst = [word]) \/ (group_length gst <= width)%Z)).

(** A word as [split] gives them: not empty, no whitespace in it. *)
Fixpoint no_space (s : string) : bool :=
  match s with
  | EmptyString => true
  | String c rest => negb (is_space c) && no_space rest
  end.

Definition is_word (s : string) : Prop := s <> "" /\ no_space s = true.

End WrapSql.

(** ** [session.py] *)

Module Session.

Definition StoredMessage : Type := (string * bool)%type.

(** [self.sessions] *)
Record SessionManager : Type := {
  sessions : PyDict.dict (list StoredMessage)
}.

(** [SessionManager()] *)
Definition new : SessionManager := {| sessions := [] |}.

(** [get_history(self, chat_id)]: a fresh list of the stored messages. *)
Definition get_history (self : SessionManager) (chat_id : string)
    : list StoredMessage :=
  match PyDict.get (sessions self) chat_id with
  | Some history => history
  | None => []
  end.

(** [add_message(self, chat_id, message)] *)
Definition add_message (self : SessionManager) (chat_id : string)
    (message : StoredMessage) : SessionManager :=
  let sessions1 :=
    if PyDict.contains (sessions self) chat_id then sessions self
    else PyDict.set (sessions self) chat_id [] in
  let history :=
    match PyDict.get sessions1 chat_id with
    | Some history => history
    | None => []
    end in
  {| sessions := PyDict.set sessions1 chat_id (history ++ [message]) |}.

(** A sequence of calls of [add_message], one for each entry. *)
Definition add_all (self : SessionManager)
    (log : list (string * StoredMessage)) : SessionManager :=
  fold_left (fun manager entry => add_message manager (fst entry) (snd entry))
    log self.

End Session.

(** ** [api.py]: the chat endpoint and the module body *)

Module Api.
Import Py Engine Formatters WrapSql Session.
Local Open Scope string_scope.

Record NewChatMessage : Type := {
  message : string;
  session_id : string
}.

Record ChatResponse : Type := {
  response : string;
  sources : list string
}.

(** How a call of [chat] or of [run_task] ends.  [OutsideEnvelope] stands
    for a dictionary that has a value of another kind under a key than
    [process_query] puts there; the embedding does not follow the code on
    such a dictionary. *)
Inductive ending (A : Type) : Type :=
| Responds (r : A)
| RaisesExn (e : exn)
| RaisesKeyError (key : string)
| OutsideEnvelope.
Arguments Responds {A} r.
Arguments RaisesExn {A} e.
Arguments RaisesKeyError {A} key.
Arguments OutsideEnvelope {A}.

Definition chat_end : Type := ending ChatResponse.

(** [str(v)] inside an f-string: a string is itself; for the other values
    [str_other] is Python's [str]. *)
Definition format_value (str_other : value -> string) (v : value) : string :=
  match v with
  | VAtom (AStr s) => s
  | _ => str_other v
  end.

(** The branch [else:] of [chat]: the text of a successful answer. *)
Definition success_response (str_other : value -> string)
    (sql_result : Envelope) : chat_end :=
  match PyDict.get sql_result "results" with
  | None => RaisesKeyError "results"
  | Some (ETable results) =>
      match format_results_as_markdown_table results with
      | KeyError key => RaisesKeyError key
      | Rendered results_text =>
          match PyDict.get sql_result "query" with
          | None => RaisesKeyError "query"
          | Some (EValue (VAtom (AStr query))) =>
              match PyDict.get sql_result "rationale" with
              | None => RaisesKeyError "rationale"
              | Some (EValue rationale) =>
                  Responds
                    {| response :=
                         "Based on your question, I ran the following SQL query:"
                         ++ LF ++ "```sql" ++ LF
                         ++ wrap_sql query default_width ++ LF ++ "```"
                         ++ LF ++ LF
                         ++ "**Rationale:** "
                         ++ format_value str_other rationale ++ LF
                         ++ results_text;
                       sources := [query] |}
              | Some _ => OutsideEnvelope
              end
          | Some (EValue v) =>
              RaisesExn
                (AttributeError
                   ("'" ++ type_name v ++ "' object has no attribute 'split'"))
          | Some _ => OutsideEnvelope
          end
      end
  | Some _ => OutsideEnvelope
  end.

(** The part of [chat] after [process_query] has returned. *)
Definition format_response (str_other : value -> string)
    (sql_result : Envelope) : chat_end :=
  if PyDict.contains sql_result "error" then
    match PyDict.get sql_result "error" with
    | Some (EText error) =>
        Responds {| response := "I encountered an error: " ++ error;
                    sources := [] |}
    | _ => OutsideEnvelope
    end
  else success_response str_other sql_result.

(** [chat(body)], on the engine [sql_engine], the collaborators [w] and the
    store [session_manager]; the store is returned as the call leaves it. *)
Definition chat (str_other : value -> string) (sql_engine : TextToSQLEngine)
    (w : World) (session_manager : SessionManager) (body : NewChatMessage)
    (t : list event) : chat_end * SessionManager * list event :=
  let user_message := (message body, true) in
  let session_manager :=
    add_message session_manager (session_id body) user_message in
  match process_query sql_engine w (message body) t with
  | (Raises e, t') => (RaisesExn e, session_manager, t')
  | (Returns sql_result, t') =>
      match format_response str_other sql_result with
      | Responds r =>
          let ai_message := (response r, false) in
          ( Responds r,
            add_message session_manager (session_id body) ai_message, t' )
      | RaisesExn e => (RaisesExn e, session_manager, t')
      | RaisesKeyError key => (RaisesKeyError key, session_manager, t')
      | OutsideEnvelope => (OutsideEnvelope, session_manager, t')
      end
  end.

(** [chat(body)] with other requests in flight.  [session_manager] is one
    object of the module, and [chat] gives way to the other requests of the
    server where it awaits [process_query] (the completion client is
    asynchronous); what runs after the model's answer does not await.
    [meanwhile] is the sequence of [add_message] calls the other requests make
    on the store during that wait. *)
Definition chat_interleaved (str_other : value -> string)
    (sql_engine : TextToSQLEngine) (w : World)
    (session_manager : SessionManager) (body : NewChatMessage)
    (meanwhile : list (string * StoredMessage))
    (t : list event) : chat_end * SessionManager * list event :=
  let user_message := (message body, true) in
  let session_manager :=
    add_message session_manager (session_id body) user_message in
  let session_manager := add_all session_manager meanwhile in
  match process_query sql_engine w (message body) t with
  | (Raises e, t') => (RaisesExn e, session_manager, t')
  | (Returns sql_result, t') =>
      match format_response str_other sql_result with
      | Responds r =>
          let ai_message := (response r, false) in
          ( Responds r,
            add_message session_manager (session_id body) ai_message, t' )
      | RaisesExn e => (RaisesExn e, session_manager, t')
      | RaisesKeyError key => (RaisesKeyError key, session_manager, t')
      | OutsideEnvelope => (OutsideEnvelope, session_manager, t')
      end
  end.

(** [get_history(session_id)] *)
Definition get_history (session_manager : SessionManager)
    (session_id : string) : list StoredMessage :=
  Session.get_history session_manager session_id.

(** A call [f(args)] of a function defined with [parameters] and neither
    defaults nor [*args]: more positional arguments than parameters is a
    [TypeError], raised before the body runs. *)
Definition decimal (n : nat) : string :=
  DecimalString.NilEmpty.string_of_uint (Nat.to_uint n).

Definition bind_positional (name : string) (parameters : nat)
    (arguments : nat) : result unit :=
  if Nat.leb arguments parameters then Returns tt
  else
    Raises (mkExn KException "TypeError"
              (name ++ "() takes " ++ decimal parameters
               ++ " positional arguments but " ++ decimal arguments
               ++ (if Nat.eqb arguments 1 then " was given"
                   else " were given"))).

(** [def init_tracing():] of [tracing.py] has no parameter. *)
Definition init_tracing_parameters : nat := 0.

(** The module body up to the store: the engine is built, then
    [init_tracing(sql_engine)] is called, then [SessionManager()]. *)
Definition module_body (environ : string -> option string)
    (create_engine : string -> result unit)
    : M event (TextToSQLEngine * SessionManager) :=
  bind (init environ create_engine) (fun sql_engine =>
  bind (lift (bind_positional "init_tracing" init_tracing_parameters 1))
       (fun _ =>
  ret (sql_engine, Session.new))).

End Api.

(** ** [.multinear/task_runner.py] *)

Module TaskRunner.
Import Py Engine Formatters WrapSql Api.
Local Open Scope string_scope.

(** The dictionary [run_task] returns: [{"error": ...}] or
    [{"output": ..., "details": {"model": ...}}]. *)
Inductive task_result : Type :=
| TaskError (error : string)
| TaskOutput (output : string) (details_model : string).

(** [run_task(input)]; [asyncio.run] gives what the coroutine returns and
    lets through what it raises. *)
Definition run_task (str_other : value -> string) (sql_engine : TextToSQLEngine)
    (w : World) (input : string) (t : list event)
    : ending task_result * list event :=
  match process_query sql_engine w input t with
  | (Raises e, t') => (RaisesExn e, t')
  | (Returns sql_result, t') =>
      if PyDict.contains sql_result "error" then
        match PyDict.get sql_result "error" with
        | Some (EText error) => (Responds (TaskError error), t')
        | _ => (OutsideEnvelope, t')
        end
      else
        match PyDict.get sql_result "results" with
        | None => (RaisesKeyError "results", t')
        | Some (ETable results) =>
            match format_results_as_markdown_table results with
            | KeyError key => (RaisesKeyError key, t')
            | Rendered results_text =>
                match PyDict.get sql_result "query" with
                | None => (RaisesKeyError "query", t')
                | Some (EValue (VAtom (AStr query))) =>
                    match PyDict.get sql_result "rationale" with
                    | None => (RaisesKeyError "rationale", t')
                    | Some (EValue rationale) =>
                        let response :=
                          "Based on your question, I ran the following SQL query:"
                          ++ LF ++ "```sql" ++ LF
                          ++ wrap_sql query default_width ++ LF ++ "```"
                          ++ LF ++ LF
                          ++ "**Rationale:** "
                          ++ format_value str_other rationale ++ LF
                          ++ results_text in
                        (Responds (TaskOutput response (model sql_engine)), t')
                    | Some _ => (OutsideEnvelope, t')
                    end
                | Some (EValue v) =>
                    ( RaisesExn
                        (AttributeError
                           ("'" ++ type_name v
                            ++ "' object has no attribute 'split'")), t' )
                | Some _ => (OutsideEnvelope, t')
                end
            end
        | Some _ => (OutsideEnvelope, t')
        end
  end.

End TaskRunner.

(** ** Notions used to state further properties *)

Module Further.
Import Py Engine Contract Formatters.
Local Open Scope string_scope.

(** The database calls of one pass through the innermost [try]: a failed
    attempt to connect, or a connection that is opened, used for one
    statement and closed. *)
Definition db_run (w : World) (sql_query : value) (t_db : list event) : Prop :=
  (engine_connect w <> Returns tt /\ t_db = [EvConnect]) \/
  (engine_connect w = Returns tt /\
   exists used,
     t_db = EvConnect :: used ++ [EvClose] /\
     (used = [EvExecute sql_query] \/
      used = [EvExecute sql_query; EvFetchmany 5] \/
      used = [EvExecute sql_query; EvFetchmany 5; EvKeys])).

Definition is_connect_event (ev : event) : bool :=
  match ev with EvConnect => true | _ => false end.

Definition is_close_event (ev : event) : bool :=
  match ev with EvClose => true | _ => false end.

Definition not_comma (c : ascii) : bool := negb (Ascii.eqb c comma).

(** [text.replace(",", "")] *)
Fixpoint strip_commas (text : string) : string :=
  match text with
  | EmptyString => EmptyString
  | String c rest =>
      if Ascii.eqb c comma then strip_commas rest
      else String c (strip_commas rest)
  end.

(** [int(text)] on a decimal numeral with an optional minus sign. *)
Definition parse_int (text : string) : option Z :=
  option_map Z.of_int (DecimalString.NilEmpty.int_of_string text).

(** Worlds for further runs: a completion without choices, and a tool
    call whose [query] is the number zero. *)
Definition no_choice_world : World :=
  Scenarios.world (Returns {| choices := [] |}).

Definition zero_query_payload : PyDict.dict value :=
  [("query", VInt 0); ("rationale", VStr "Count the customers")].

Definition zero_query_world : World :=
  {| now_strftime := "2026-01-15";
     chat_completions_create :=
       fun _ => Returns (Scenarios.tool_call_completion "{}");
     json_loads := fun _ => Returns (VDict zero_query_payload);
     engine_connect := Returns tt;
     connection_execute := Scenarios.connection_execute;
     connection_exit := Returns tt |}.

(** The endpoint and the task runner end alike: the same text, the same
    exception. *)
Definition same_ending (by_chat : Api.chat_end)
    (by_task : Api.ending TaskRunner.task_result) (model_name : string)
    : Prop :=
  match by_chat, by_task with
  | Api.Responds r, Api.Responds (TaskRunner.TaskOutput output name) =>
      output = Api.response r /\ name = model_name /\
      exists query, Api.sources r = [query]
  | Api.Responds r, Api.Responds (TaskRunner.TaskError error) =>
      Api.response r = "I encountered an error: " ++ error /\
      Api.sources r = []
  | Api.RaisesExn e, Api.RaisesExn e' => e = e'
  | Api.RaisesKeyError key, Api.RaisesKeyError key' => key = key'
  | Api.OutsideEnvelope, Api.OutsideEnvelope => True
  | _, _ => False
  end.

(** Every row the database delivers has one cell for each column. *)
Definition full_rows (result : CursorResult) : Prop :=
  forall row, In row (all_rows result) ->
              length row = length (column_keys result).

(** A value that is no string. *)
Definition not_text (v : value) : Prop :=
  match v with
  | VAtom (AStr _) => False
  | _ => True
  end.

(** The line [connection.execute(text(sql_query))] raises for every
    statement that is no string, as [sqlalchemy.text] does. *)
Definition text_refuses_non_strings (w : World) : Prop :=
  forall v, not_text v -> exists e, connection_execute w v = Raises e.

(** The ways [chat] can end, by what the collaborators did. *)
Definition chat_ends_as (self : TextToSQLEngine) (w : World)
    (user_question : string) (by_chat : Api.chat_end) : Prop :=
  match by_chat with
  | Api.Responds _ => True
  | Api.RaisesExn e =>
      isinstance_Exception e = false /\ raised_by_collaborator w e
  | Api.RaisesKeyError _ =>
      exists payload result,
        parsed_payload self w user_question payload /\
        complete_payload payload /\
        execution_succeeds w (field_of payload "query") result /\
        ~ full_rows result
  | Api.OutsideEnvelope => False
  end.

(** The messages a log of [add_message] calls adds to one session. *)
Definition added_to (chat_id : string)
    (log : list (string * Session.StoredMessage))
    : list Session.StoredMessage :=
  map snd (filter (fun entry => String.eqb (fst entry) chat_id) log).

(** What [chat] adds to the history of its session at its end. *)
Definition answer_message (by_chat : Api.chat_end)
    : list Session.StoredMessage :=
  match by_chat with
  | Api.Responds r => [(Api.response r, false)]
  | _ => []
  end.

(** Two requests on one session: while the first waits for the model, the
    second is answered. *)
Definition second_exchange : list (string * Session.StoredMessage) :=
  [ ("s1", ("And by orders?", true));
    ("s2", ("Hello", true));
    ("s1", ("I encountered an error: no answer", false)) ].

End Further.

(** * Properties *)

(** ** Dictionaries *)

Section DictFacts.
Context {V : Type}.
Implicit Types (d : PyDict.dict V) (k : string) (v : V).
Implicit Types (pairs : list (string * V)).

Lemma get_set_same d k v : PyDict.get (PyDict.set d k v) k = Some v.
Proof.
  induction d as [|[k' v'] d IH]; simpl.
  - now rewrite String.eqb_refl.
  - destruct (String.eqb k' k) eqn:E; simpl; rewrite E; auto.
Qed.

Lemma get_set_other d k k' v :
  k <> k' -> PyDict.get (PyDict.set d k v) k' = PyDict.get d k'.
Proof.
  intros Hne. induction d as [|[k0 v0] d IH]; simpl.
  - destruct (String.eqb k k') eqn:E; auto.
    apply String.eqb_eq in E. contradiction.
  - destruct (String.eqb k0 k) eqn:E; simpl.
    + apply String.eqb_eq in E. subst k0.
      destruct (String.eqb k k') eqn:E'; auto.
      apply String.eqb_eq in E'. contradiction.
    + now rewrite IH.
Qed.

Lemma get_In_keys d k : PyDict.get d k <> None <-> In k (PyDict.keys d).
Proof.
  induction d as [|[k' v'] d IH]; simpl.
  - split; [congruence | tauto].
  - destruct (String.eqb k' k) eqn:E.
    + apply String.eqb_eq in E. split; [auto | congruence].
    + apply String.eqb_neq in E. rewrite IH. split; [auto | intros [H|H]; tauto].
Qed.

Lemma keys_set d k v :
  PyDict.keys (PyDict.set d k v) =
  if PyDict.contains d k then PyDict.keys d else PyDict.keys d ++ [k].
Proof.
  unfold PyDict.contains.
  induction d as [|[k' v'] d IH]; simpl; auto.
  destruct (String.eqb k' k) eqn:E; simpl; auto.
  rewrite IH. destruct (PyDict.get d k); auto.
Qed.

Lemma NoDup_keys_set d k v :
  NoDup (PyDict.keys d) -> NoDup (PyDict.keys (PyDict.set d k v)).
Proof.
  intros Hnd. rewrite keys_set. unfold PyDict.contains.
  destruct (PyDict.get d k) eqn:E; auto.
  apply NoDup_app; auto.
  - repeat constructor. simpl. tauto.
  - intros x Hx [Hk|[]]. subst x.
    apply get_In_keys in Hx. congruence.
Qed.

Lemma get_insert_all pairs : forall d k,
  PyDict.get (PyDict.insert_all d pairs) k =
  match PyDict.last_binding pairs k with
  | Some v => Some v
  | None => PyDict.get d k
  end.
Proof.
  induction pairs as [|[k0 v0] pairs IH]; intros d k; simpl; auto.
  unfold PyDict.insert_all in *. simpl. rewrite IH.
  destruct (PyDict.last_binding pairs k); auto.
  destruct (String.eqb k0 k) eqn:E.
  - apply String.eqb_eq in E. subst. apply get_set_same.
  - apply String.eqb_neq in E. now apply get_set_other.
Qed.

Lemma NoDup_keys_insert_all pairs : forall d,
  NoDup (PyDict.keys d) -> NoDup (PyDict.keys (PyDict.insert_all d pairs)).
Proof.
  induction pairs as [|[k0 v0] pairs IH]; intros d Hd; simpl; auto.
  apply IH. now apply NoDup_keys_set.
Qed.

Lemma get_of_pairs pairs k :
  PyDict.get (PyDict.of_pairs pairs) k = PyDict.last_binding pairs k.
Proof.
  unfold PyDict.of_pairs. rewrite get_insert_all. now destruct (PyDict.last_binding pairs k).
Qed.

Lemma NoDup_keys_of_pairs pairs : NoDup (PyDict.keys (PyDict.of_pairs pairs)).
Proof.
  apply (NoDup_keys_insert_all pairs []). constructor.
Qed.

Lemma last_binding_In_keys pairs k :
  PyDict.last_binding pairs k <> None <-> In k (map fst pairs).
Proof.
  induction pairs as [|[k0 v0] pairs IH]; simpl.
  - split; [congruence | tauto].
  - destruct (PyDict.last_binding pairs k) eqn:E.
    + split; [intros _; right; apply IH; congruence | congruence].
    + destruct (String.eqb k0 k) eqn:E'.
      * apply String.eqb_eq in E'. split; [auto | congruence].
      * apply String.eqb_neq in E'. split; [congruence|].
        intros [H|H]; [contradiction|]. apply IH in H. congruence.
Qed.

(** The last binding sits at the greatest index that carries the key. *)
Lemma last_binding_nth pairs k v :
  PyDict.last_binding pairs k = Some v ->
  exists i, nth_error pairs i = Some (k, v) /\
            forall j, (i < j)%nat -> nth_error (map fst pairs) j <> Some k.
Proof.
  induction pairs as [|[k0 v0] pairs IH]; simpl; [congruence|].
  destruct (PyDict.last_binding pairs k) eqn:E.
  - intros [= <-]. destruct (IH eq_refl) as (i & Hi & Hlast).
    exists (S i). split; [exact Hi|].
    intros [|j] Hj; [lia|]. simpl. apply Hlast. lia.
  - destruct (String.eqb k0 k) eqn:E'; [|congruence].
    apply String.eqb_eq in E'. subst k0. intros [= <-].
    exists 0%nat. split; [reflexivity|].
    intros [|j] Hj; [lia|]. simpl. intros Hnth.
    apply nth_error_In in Hnth. apply last_binding_In_keys in Hnth. congruence.
Qed.

Lemma keys_of_pairs_incl pairs :
  incl (PyDict.keys (PyDict.of_pairs pairs)) (map fst pairs).
Proof.
  intros k Hk. apply get_In_keys in Hk. rewrite get_of_pairs in Hk.
  now apply last_binding_In_keys.
Qed.

Lemma In_keys_of_pairs pairs k :
  In k (map fst pairs) -> In k (PyDict.keys (PyDict.of_pairs pairs)).
Proof.
  intros Hk. apply get_In_keys. rewrite get_of_pairs.
  now apply last_binding_In_keys.
Qed.

Lemma set_fresh d k v :
  ~ In k (PyDict.keys d) -> PyDict.set d k v = d ++ [(k, v)].
Proof.
  induction d as [|[k0 v0] d IH]; simpl; intros Hk; auto.
  destruct (String.eqb k0 k) eqn:E.
  - apply String.eqb_eq in E. tauto.
  - rewrite IH; tauto.
Qed.

Lemma insert_all_fresh pairs : forall d,
  NoDup (PyDict.keys d ++ map fst pairs) -> PyDict.insert_all d pairs = d ++ pairs.
Proof.
  induction pairs as [|[k0 v0] pairs IH]; intros d Hnd; simpl.
  - now rewrite app_nil_r.
  - simpl in Hnd. unfold PyDict.insert_all in *. simpl.
    rewrite set_fresh.
    + rewrite IH.
      * now rewrite <- app_assoc.
      * unfold PyDict.keys in *. rewrite map_app. simpl.
        rewrite <- app_assoc. exact Hnd.
    + apply NoDup_remove_2 in Hnd. intros Hin. apply Hnd.
      apply in_or_app. now left.
Qed.

(** Without repeated keys, [dict(pairs)] is the sequence of pairs itself. *)
Lemma of_pairs_NoDup pairs :
  NoDup (map fst pairs) -> PyDict.of_pairs pairs = pairs.
Proof.
  intros Hnd. apply (insert_all_fresh pairs []). exact Hnd.
Qed.

Lemma contains_existsb d k :
  PyDict.contains d k = existsb (String.eqb k) (PyDict.keys d).
Proof.
  unfold PyDict.contains.
  induction d as [|[k' v'] d IH]; simpl; [reflexivity|].
  rewrite (String.eqb_sym k k').
  destruct (String.eqb k' k); simpl; [reflexivity | exact IH].
Qed.

Lemma filter_filter {A} (p q : A -> bool) (l : list A) :
  filter p (filter q l) = filter (fun x => q x && p x) l.
Proof.
  induction l as [|x l IH]; simpl; [reflexivity|].
  destruct (q x); simpl; [destruct (p x)|]; now rewrite IH.
Qed.

(** The keys of [d.update(pairs)]: those of [d], then the new keys in the
    order in which they first occur. *)
Lemma keys_insert_all pairs : forall d,
  PyDict.keys (PyDict.insert_all d pairs) =
  PyDict.keys d
  ++ filter (fun k => negb (existsb (String.eqb k) (PyDict.keys d)))
       (PyDict.first_occurrences (map fst pairs)).
Proof.
  induction pairs as [|[k0 v0] pairs IH]; intros d; simpl.
  - now rewrite app_nil_r.
  - unfold PyDict.insert_all in *. simpl. rewrite IH, keys_set.
    rewrite contains_existsb.
    destruct (existsb (String.eqb k0) (PyDict.keys d)) eqn:E; simpl.
    + f_equal. rewrite filter_filter. apply filter_ext. intros k.
      destruct (String.eqb k0 k) eqn:Ek; simpl; [|reflexivity].
      apply String.eqb_eq in Ek. subst k. now rewrite E.
    + rewrite <- app_assoc. simpl. do 2 f_equal.
      rewrite filter_filter. apply filter_ext. intros k.
      rewrite existsb_app. simpl. rewrite orb_false_r, negb_orb.
      rewrite (String.eqb_sym k k0). apply andb_comm.
Qed.

(** The keys of [dict(pairs)] are the keys of the pairs in the order in
    which they first occur. *)
Lemma keys_of_pairs pairs :
  PyDict.keys (PyDict.of_pairs pairs) = PyDict.first_occurrences (map fst pairs).
Proof.
  unfold PyDict.of_pairs. rewrite keys_insert_all. simpl.
  induction (PyDict.first_occurrences (map fst pairs)) as [|k l IH]; simpl;
    [reflexivity | now rewrite IH].
Qed.

End DictFacts.

Lemma map_fst_combine {A B} (l : list A) (l' : list B) :
  length l' = length l -> map fst (combine l l') = l.
Proof.
  revert l'. induction l as [|a l IH]; intros [|b l'] H; simpl in *;
    try congruence; try discriminate.
  f_equal. apply IH. lia.
Qed.

Lemma nth_error_combine {A B} (l : list A) (l' : list B) i a b :
  nth_error (combine l l') i = Some (a, b) ->
  nth_error l i = Some a /\ nth_error l' i = Some b.
Proof.
  revert l l'. induction i as [|i IH]; intros [|x l] [|y l']; simpl;
    try congruence.
  - intros [= -> ->]. auto.
  - apply IH.
Qed.

(** *** Repeated column names *)

Section DuplicateColumns.
Context {V : Type}.

(** C10: when a column name occurs twice or more in the projection, the
    mapping [dict(zip(columns, row))] has exactly one entry for it, that
    entry holds the cell of the last column of that name, and the mapping
    has fewer entries than the row has cells: the cells of the earlier
    columns of that name are not in it.  Its keys are the column names in
    the order in which they first occur. *)
Theorem C10_duplicate_column_names_collapse
    (columns : list string) (row : list V) (name : string) :
  length row = length columns ->
  (2 <= count_occ string_dec columns name)%nat ->
  count_occ string_dec (PyDict.keys (PyDict.of_zip columns row)) name = 1%nat /\
  (exists i v,
      nth_error columns i = Some name /\ nth_error row i = Some v /\
      (forall j, (i < j)%nat -> nth_error columns j <> Some name) /\
      PyDict.get (PyDict.of_zip columns row) name = Some v) /\
  (length (PyDict.of_zip columns row) < length row)%nat /\
  PyDict.keys (PyDict.of_zip columns row) = PyDict.first_occurrences columns.
Proof.
  intros Hlen Hcount. unfold PyDict.of_zip.
  pose proof (map_fst_combine columns row Hlen) as Hfst.
  assert (Hin : In name columns).
  { apply (count_occ_In string_dec). lia. }
  split; [|split; [|split]]; [| | | now rewrite keys_of_pairs, Hfst].
  - apply NoDup_count_occ'.
    + apply NoDup_keys_of_pairs.
    + apply In_keys_of_pairs. now rewrite Hfst.
  - destruct (PyDict.last_binding (combine columns row) name) as [v|] eqn:E.
    + destruct (last_binding_nth _ _ _ E) as (i & Hi & Hlast).
      apply nth_error_combine in Hi. destruct Hi as [Hc Hr].
      exists i, v. repeat split; auto.
      * rewrite Hfst in Hlast. exact Hlast.
      * rewrite get_of_pairs. exact E.
    + exfalso. revert E. apply last_binding_In_keys. now rewrite Hfst.
  - destruct (Nat.lt_ge_cases (length (PyDict.of_pairs (combine columns row)))
                (length row)) as [Hlt|Hge]; [exact Hlt|exfalso].
    assert (Hnd : NoDup columns).
    { apply NoDup_incl_NoDup
        with (l := PyDict.keys (PyDict.of_pairs (combine columns row))).
      - apply NoDup_keys_of_pairs.
      - unfold PyDict.keys. rewrite length_map. lia.
      - rewrite <- Hfst at 2. apply keys_of_pairs_incl. }
    rewrite (NoDup_count_occ string_dec) in Hnd. specialize (Hnd name). lia.
Qed.

End DuplicateColumns.

Lemma C10_witness :
  (2 <= count_occ string_dec ["a"; "b"; "a"] "a")%nat /\
  PyDict.of_zip ["a"; "b"; "a"] [1%Z; 2%Z; 3%Z] = [("a", 3%Z); ("b", 2%Z)] /\
  (length (PyDict.of_zip ["a"; "b"; "a"] [1%Z; 2%Z; 3%Z]) < 3)%nat.
Proof.
  split; [vm_compute; lia|]. split; [reflexivity|].
  refine (proj1 (proj2 (proj2 (C10_duplicate_column_names_collapse
                                 ["a"; "b"; "a"] [1%Z; 2%Z; 3%Z] "a" _ _))));
    [reflexivity | vm_compute; lia].
Defined.

(** ** [process_query] *)

Section ProcessQuery.
Import Py Engine Contract.

Variable self : TextToSQLEngine.
Variable w : World.
Variable user_question : string.

Ltac unfold_run :=
  unfold process_query, execute_and_fetch, fetchmany, keys, first_item,
    get_method, with_, try_except, bind, call, lift, ret, raise,
    error_envelope in *.

(** Up to the decoded payload, a run consists of the model call alone. *)
Lemma run_no_tool_calls message t :
  model_message self w user_question message ->
  zero_tool_calls message ->
  process_query self w user_question t =
  (Returns NoToolCall, t ++ [EvChatCompletion (request_of self w user_question)]).
Proof.
  intros (completion & others & Hc & Hm) Hz.
  unfold request_of in *. unfold_run. rewrite Hc, Hm.
  destruct Hz as [Hz|Hz]; rewrite Hz; reflexivity.
Qed.

Local Abbreviation request := (request_of self w user_question).

Lemma run_api_raises e t :
  chat_completions_create w request = Raises e ->
  process_query self w user_question t =
  ( if isinstance_Exception e then Returns (ApiFailure (exn_str e)) else Raises e,
    t ++ [EvChatCompletion request] ).
Proof.
  intros Hc. unfold request_of in *. unfold_run. rewrite Hc.
  destruct (isinstance_Exception e); reflexivity.
Qed.

Lemma run_no_choices completion t :
  chat_completions_create w request = Returns completion ->
  choices completion = [] ->
  process_query self w user_question t =
  (Returns (ApiFailure "list index out of range"), t ++ [EvChatCompletion request]).
Proof.
  intros Hc Hm. unfold request_of in *. unfold_run. rewrite Hc, Hm. reflexivity.
Qed.

Lemma run_decode_raises message tool_call e t :
  model_message self w user_question message ->
  first_tool_call message tool_call ->
  json_loads w (function_arguments tool_call) = Raises e ->
  process_query self w user_question t =
  ( if isinstance_JSONDecodeError e then Returns (MalformedArguments (exn_str e))
    else if isinstance_Exception e then Returns (ApiFailure (exn_str e))
    else Raises e,
    t ++ [EvChatCompletion request] ).
Proof.
  intros (completion & others & Hc & Hm) (calls & Htc) Hj.
  unfold request_of in *. unfold_run. rewrite Hc, Hm, Htc, Hj.
  destruct (isinstance_JSONDecodeError e); [reflexivity|].
  destruct (isinstance_Exception e); reflexivity.
Qed.

Lemma run_not_a_dict message tool_call v t :
  model_message self w user_question message ->
  first_tool_call message tool_call ->
  json_loads w (function_arguments tool_call) = Returns v ->
  not_a_dict v ->
  process_query self w user_question t =
  ( Returns (ApiFailure ("'" ++ type_name v ++ "' object has no attribute 'get'")),
    t ++ [EvChatCompletion request] ).
Proof.
  intros (completion & others & Hc & Hm) (calls & Htc) Hj Hv.
  unfold request_of in *. unfold_run. rewrite Hc, Hm, Htc, Hj.
  destruct v; simpl in Hv; [reflexivity | reflexivity | contradiction].
Qed.

(** After a payload is decoded the run depends on the validation and on
    the database only. *)
Lemma run_payload payload t :
  parsed_payload self w user_question payload ->
  process_query self w user_question t =
  try_except
    (if negb (truthy (field_of payload "query"))
        || negb (truthy (field_of payload "rationale"))
     then ret IncompleteResult
     else try_except
            (execute_and_fetch w (field_of payload "query")
               (field_of payload "rationale"))
            isinstance_Exception
            (fun e => ret (QueryFailed (exn_str e))))
    isinstance_Exception
    (fun e => ret (ApiFailure (exn_str e)))
    (t ++ [EvChatCompletion request]).
Proof.
  intros (message & tool_call & (completion & others & Hc & Hm)
          & (calls & Htc) & Hj).
  unfold request_of in *.
  unfold process_query, first_item, get_method, field_of, error_envelope,
    try_except, bind, call, lift, ret.
  rewrite Hc, Hm, Htc, Hj. reflexivity.
Qed.

Lemma run_incomplete payload t :
  parsed_payload self w user_question payload ->
  truthy (field_of payload "query") = false \/
  truthy (field_of payload "rationale") = false ->
  process_query self w user_question t =
  (Returns IncompleteResult, t ++ [EvChatCompletion request]).
Proof.
  intros Hp Hf. rewrite (run_payload payload t Hp).
  unfold try_except, ret.
  destruct Hf as [Hf|Hf]; rewrite Hf; simpl; [reflexivity|].
  now rewrite orb_true_r.
Qed.

Lemma execute_and_fetch_failure sql_query rationale e t :
  db_failure w sql_query e ->
  exists t_db,
    execute_and_fetch w sql_query rationale t = (Raises e, t ++ t_db) /\
    db_trace_of_failure sql_query t_db.
Proof.
  unfold db_trace_of_failure.
  intros [Hc | Hc He Hx | result Hc He Hf Hx | Hc Hx]; unfold_run.
  - rewrite Hc. exists [EvConnect]. auto.
  - rewrite Hc, He, Hx. exists [EvConnect; EvExecute sql_query; EvClose].
    rewrite <- !app_assoc. simpl. auto.
  - rewrite Hc, He, Hf, Hx.
    exists [EvConnect; EvExecute sql_query; EvFetchmany 5; EvClose].
    rewrite <- !app_assoc. simpl. auto 6.
  - rewrite Hc, Hx.
    destruct (connection_execute w sql_query) as [result|e0].
    + destruct (fetch_error result) as [e1|].
      * exists [EvConnect; EvExecute sql_query; EvFetchmany 5; EvClose].
        rewrite <- !app_assoc. simpl. auto 6.
      * exists [EvConnect; EvExecute sql_query; EvFetchmany 5; EvKeys; EvClose].
        rewrite <- !app_assoc. simpl. auto 6.
    + exists [EvConnect; EvExecute sql_query; EvClose].
      rewrite <- !app_assoc. simpl. auto.
Qed.

Lemma run_db_failure payload e t :
  parsed_payload self w user_question payload ->
  complete_payload payload ->
  db_failure w (field_of payload "query") e ->
  exists t_db,
    process_query self w user_question t =
    ( if isinstance_Exception e then Returns (QueryFailed (exn_str e))
      else Raises e,
      t ++ [EvChatCompletion request] ++ t_db ) /\
    db_trace_of_failure (field_of payload "query") t_db.
Proof.
  intros Hp [Hq Hr] Hdb. rewrite (run_payload payload t Hp).
  rewrite Hq, Hr. simpl.
  destruct (execute_and_fetch_failure _ (field_of payload "rationale") e
              (t ++ [EvChatCompletion request]) Hdb) as (t_db & Hrun & Htr).
  exists t_db. split; [|exact Htr].
  unfold try_except at 1 2. rewrite Hrun.
  rewrite <- app_assoc.
  destruct (isinstance_Exception e) eqn:E; simpl; rewrite ?E; reflexivity.
Qed.

Lemma run_success payload result t :
  parsed_payload self w user_question payload ->
  complete_payload payload ->
  execution_succeeds w (field_of payload "query") result ->
  process_query self w user_question t =
  ( Returns (success_envelope payload result),
    t ++ [ EvChatCompletion request; EvConnect;
           EvExecute (field_of payload "query"); EvFetchmany 5; EvKeys;
           EvClose ] ).
Proof.
  intros Hp [Hq Hr] (Hc & He & Hf & Hx). rewrite (run_payload payload t Hp).
  rewrite Hq, Hr. simpl. unfold_run. rewrite Hc, He, Hf, Hx.
  rewrite <- !app_assoc. reflexivity.
Qed.

Lemma run_end_of_raise e :
  raised_by_collaborator w e ->
  forall msg,
    run_end self w user_question (if isinstance_Exception e
             then Returns [("error", EText msg)] else Raises e).
Proof.
  intros Hr msg. destruct (isinstance_Exception e) eqn:E.
  - apply EndError.
  - now apply EndRaise.
Qed.

Lemma db_failure_raised sql_query e :
  db_failure w sql_query e -> raised_by_collaborator w e.
Proof.
  unfold raised_by_collaborator.
  intros [Hc | Hc He Hx | result Hc He Hf Hx | Hc Hx]; eauto 10.
Qed.

Lemma run_classified t :
  exists t_new,
    snd (process_query self w user_question t)
      = t ++ EvChatCompletion request :: t_new /\
    run_end self w user_question (fst (process_query self w user_question t)).
Proof.
  destruct (chat_completions_create w request) as [completion|e] eqn:Hc.
  2:{ rewrite (run_api_raises e t Hc). exists []. split; [reflexivity|].
      apply run_end_of_raise. left. eauto. }
  destruct (choices completion) as [|message others] eqn:Hm.
  { rewrite (run_no_choices completion t Hc Hm). exists []. split;
      [reflexivity | apply EndError]. }
  assert (Hmsg : model_message self w user_question message).
  { exists completion, others. auto. }
  destruct (tool_calls message) as [[|tool_call calls]|] eqn:Htc.
  1,3: rewrite (run_no_tool_calls message t Hmsg);
    [ exists []; split; [reflexivity | apply EndError]
    | unfold zero_tool_calls; auto ].
  assert (Hcall : first_tool_call message tool_call).
  { exists calls. exact Htc. }
  destruct (json_loads w (function_arguments tool_call)) as [v|e] eqn:Hj.
  2:{ rewrite (run_decode_raises message tool_call e t Hmsg Hcall Hj).
      exists []. split; [reflexivity|].
      destruct (isinstance_JSONDecodeError e); [apply EndError|].
      apply run_end_of_raise. right. left. eauto. }
  assert (Hnd : forall v', v = v' -> not_a_dict v' ->
            exists t_new,
              snd (process_query self w user_question t)
                = t ++ EvChatCompletion request :: t_new /\
              run_end self w user_question (fst (process_query self w user_question t))).
  { intros v' -> Hv.
    rewrite (run_not_a_dict message tool_call v' t Hmsg Hcall Hj Hv).
    exists []. split; [reflexivity | apply EndError]. }
  destruct v as [a|items|payload];
    [ apply (Hnd _ eq_refl); exact I | apply (Hnd _ eq_refl); exact I
    | clear Hnd ].
  assert (Hp : parsed_payload self w user_question payload).
  { exists message, tool_call. auto. }
  destruct (truthy (field_of payload "query")) eqn:Hq.
  2:{ rewrite (run_incomplete payload t Hp); [|auto].
      exists []. split; [reflexivity | apply EndError]. }
  destruct (truthy (field_of payload "rationale")) eqn:Hr.
  2:{ rewrite (run_incomplete payload t Hp); [|auto].
      exists []. split; [reflexivity | apply EndError]. }
  assert (Hcomplete : complete_payload payload) by (split; assumption).
  assert (Hfail : forall e, db_failure w (field_of payload "query") e ->
            exists t_new,
              snd (process_query self w user_question t)
                = t ++ EvChatCompletion request :: t_new /\
              run_end self w user_question (fst (process_query self w user_question t))).
  { intros e Hdb.
    destruct (run_db_failure payload e t Hp Hcomplete Hdb) as (t_db & Hrun & _).
    rewrite Hrun. exists t_db. split; [reflexivity|].
    apply run_end_of_raise. eapply db_failure_raised; eauto. }
  destruct (engine_connect w) as [[]|e] eqn:Hconn.
  2:{ apply (Hfail e). now apply ConnectFails. }
  destruct (connection_exit w) as [[]|e] eqn:Hexit.
  2:{ apply (Hfail e). now apply ExitFails. }
  destruct (connection_execute w (field_of payload "query"))
    as [result|e] eqn:Hexec.
  2:{ apply (Hfail e). now apply ExecuteFails. }
  destruct (fetch_error result) as [e|] eqn:Hfetch.
  { apply (Hfail e). now apply FetchFails with (result := result). }
  assert (Hok : execution_succeeds w (field_of payload "query") result).
  { repeat split; assumption. }
  rewrite (run_success payload result t Hp Hcomplete Hok).
  eexists. split; [reflexivity|].
  now apply EndSuccess.
Qed.

(** C1: an envelope that [process_query] returns has exactly one of the two
    shapes: the single key [error], mapped to a string, or exactly the three
    keys [query], [rationale] and [results]; never both, never neither. *)
Theorem C1_envelope_has_exactly_one_shape t envelope t' :
  process_query self w user_question t = (Returns envelope, t') ->
  envelope_shape envelope /\
  ( (PyDict.keys envelope = ["error"] /\
     (exists msg, PyDict.get envelope "error" = Some (EText msg)) /\
     has_some_success_key envelope = false)
    \/
    (PyDict.keys envelope = ["query"; "rationale"; "results"] /\
     has_all_success_keys envelope = true /\
     has_error envelope = false) ) /\
  xorb (has_error envelope) (has_all_success_keys envelope) = true.
Proof.
  intros Hrun. destruct (run_classified t) as (t_new & _ & Hend).
  rewrite Hrun in Hend. simpl in Hend.
  inversion Hend; subst.
  - split; [constructor|]. split; [left | reflexivity].
    repeat split. exists msg. reflexivity.
  - split; [constructor|]. split; [right | reflexivity].
    repeat split.
Qed.

(** C2: when the generated statement executes and its rows are fetched
    without error, the success envelope holds the first five rows of the
    statement's result, in its order (all of them when there are fewer), and
    each row is [dict(zip(columns, row))] over the column names of the
    result: its keys are the column names, each once, in projection order
    (a repeated name at its first place), and the mapping is the columns
    paired with the cells when no name repeats. *)
Theorem C2_results_are_the_first_five_rows payload result t :
  parsed_payload self w user_question payload ->
  complete_payload payload ->
  execution_succeeds w (field_of payload "query") result ->
  exists rows t',
    process_query self w user_question t =
    ( Returns [ ("query", EValue (field_of payload "query"));
                ("rationale", EValue (field_of payload "rationale"));
                ("results", ETable rows) ], t' ) /\
    (length rows <= 5)%nat /\
    length rows = Nat.min 5 (length (all_rows result)) /\
    ((5 < length (all_rows result))%nat -> length rows = 5%nat) /\
    rows = map (PyDict.of_zip (column_keys result)) (firstn 5 (all_rows result)) /\
    (forall i mapping,
        nth_error rows i = Some mapping ->
        exists row,
          nth_error (all_rows result) i = Some row /\
          mapping = PyDict.of_zip (column_keys result) row /\
          incl (PyDict.keys mapping) (column_keys result) /\
          NoDup (PyDict.keys mapping) /\
          (length row = length (column_keys result) ->
           PyDict.keys mapping
           = PyDict.first_occurrences (column_keys result)) /\
          (NoDup (column_keys result) ->
           length row = length (column_keys result) ->
           mapping = combine (column_keys result) row)).
Proof.
  intros Hp Hcomplete Hok.
  exists (map (PyDict.of_zip (column_keys result)) (firstn 5 (all_rows result))).
  eexists. split; [apply (run_success payload result t Hp Hcomplete Hok)|].
  rewrite length_map, length_firstn.
  split; [lia|]. split; [reflexivity|]. split; [lia|]. split; [reflexivity|].
  intros i mapping Hnth.
  rewrite nth_error_map in Hnth.
  match type of Hnth with
  | option_map _ ?x = _ => destruct x as [row|] eqn:Hrow
  end; simpl in Hnth; [|discriminate].
  injection Hnth as <-. exists row.
  assert (Hi : (i < 5)%nat).
  { assert (Hlt : (i < length (firstn 5 (all_rows result)))%nat)
      by (apply nth_error_Some; unfold Row in *; congruence).
    rewrite length_firstn in Hlt. lia. }
  rewrite nth_error_firstn in Hrow.
  destruct (Nat.ltb_spec i 5) as [_|Hle]; [|lia].
  split; [exact Hrow|]. split; [reflexivity|].
  unfold PyDict.of_zip. split; [|split; [|split]].
  - intros k Hk. apply keys_of_pairs_incl in Hk.
    apply in_map_iff in Hk. destruct Hk as ([k' v] & <- & Hin).
    now apply in_combine_l in Hin.
  - apply NoDup_keys_of_pairs.
  - intros Hlen. now rewrite keys_of_pairs, map_fst_combine.
  - intros Hnd Hlen. apply of_pairs_NoDup.
    now rewrite map_fst_combine.
Qed.



(** C4: when a payload is decoded and its [query] or its [rationale] is
    missing or empty, [process_query] returns exactly the envelope with the
    error "Missing query or rationale in the response", and the run makes no
    call to the database. *)
Theorem C4_incomplete_payload_short_circuits payload t :
  parsed_payload self w user_question payload ->
  empty_or_missing payload "query" \/ empty_or_missing payload "rationale" ->
  exists t',
    process_query self w user_question t =
    ( Returns [("error", EText "Missing query or rationale in the response")],
      t' ) /\
    t' = t ++ [EvChatCompletion request] /\
    db_calls t' = db_calls t /\
    executions t' = executions t.
Proof.
  intros Hp Hmissing. exists (t ++ [EvChatCompletion request]).
  split.
  - apply (run_incomplete payload t Hp).
    unfold empty_or_missing, field_of in *.
    destruct Hmissing as [[H|[H|H]]|[H|[H|H]]]; rewrite H; auto.
  - unfold db_calls, executions. rewrite !filter_app. simpl.
    rewrite !app_nil_r. auto.
Qed.

(** C5, as the code has it: when decoding the arguments of the tool call
    raises [json.JSONDecodeError], [process_query] returns the envelope with
    the error "Failed to parse OpenAI response: " followed by the decoder's
    message, the run makes no call to the database, and this envelope
    differs from every envelope of a failed API call. *)
Theorem C5_undecodable_arguments message tool_call e t :
  model_message self w user_question message ->
  first_tool_call message tool_call ->
  json_loads w (function_arguments tool_call) = Raises e ->
  isinstance_JSONDecodeError e = true ->
  exists t',
    process_query self w user_question t =
    ( Returns [("error", EText ("Failed to parse OpenAI response: " ++ exn_str e))],
      t' ) /\
    db_calls t' = db_calls t /\
    (forall detail,
        MalformedArguments (exn_str e) <> ApiFailure detail).
Proof.
  intros Hmsg Hcall Hj He. exists (t ++ [EvChatCompletion request]).
  split; [|split].
  - rewrite (run_decode_raises message tool_call e t Hmsg Hcall Hj).
    now rewrite He.
  - unfold db_calls. rewrite filter_app. simpl. now rewrite app_nil_r.
  - intros detail. unfold MalformedArguments, ApiFailure. simpl.
    intros H. discriminate H.
Qed.

(** C7: when the database layer raises an error while the generated
    statement is executed, [process_query] returns the envelope with the
    error "SQL execution failed: " followed by the message of that error; it
    does not raise, the statement is executed at most once and the model is
    not called again. *)
Theorem C7_database_errors_are_isolated payload e t :
  parsed_payload self w user_question payload ->
  complete_payload payload ->
  db_failure w (field_of payload "query") e ->
  isinstance_Exception e = true ->
  exists t_db,
    process_query self w user_question t =
    ( Returns [("error", EText ("SQL execution failed: " ++ exn_str e))],
      t ++ [EvChatCompletion request] ++ t_db ) /\
    (executions t_db <= 1)%nat /\
    model_calls t_db = 0%nat /\
    db_calls t_db = t_db.
Proof.
  intros Hp Hcomplete Hdb He.
  destruct (run_db_failure payload e t Hp Hcomplete Hdb) as (t_db & Hrun & Htr).
  exists t_db. rewrite He in Hrun. split; [exact Hrun|].
  unfold executions, model_calls, db_calls.
  destruct Htr as [-> | [-> | [-> | ->]]]; simpl; repeat split; lia.
Qed.

End ProcessQuery.

(** C6: when the message of the model has no tool calls, [process_query]
    returns exactly the envelope with the error "No tool calls found in the
    response" and the run makes no call to the database.  The text is fixed:
    it is the same for every engine, schema, date and question, so nothing
    of the prompt or the schema is in it. *)
Theorem C6_no_tool_call
    (self : Engine.TextToSQLEngine) (w : Engine.World) (user_question : string)
    (message : Engine.Message) (t : list Engine.event) :
  Contract.model_message self w user_question message ->
  Contract.zero_tool_calls message ->
  (exists t',
      Engine.process_query self w user_question t =
      ( Py.Returns
          [("error", Engine.EText "No tool calls found in the response")], t' ) /\
      Contract.db_calls t' = Contract.db_calls t /\
      Contract.executions t' = Contract.executions t)
  /\
  (forall self' w' user_question' message' t0,
      Contract.model_message self' w' user_question' message' ->
      Contract.zero_tool_calls message' ->
      fst (Engine.process_query self' w' user_question' t0)
      = fst (Engine.process_query self w user_question t)).
Proof.
  intros Hmsg Hz. split.
  - exists (t ++ [Engine.EvChatCompletion
                    (Contract.request_of self w user_question)]).
    split; [apply (run_no_tool_calls self w user_question message t Hmsg Hz)|].
    unfold Contract.db_calls, Contract.executions. rewrite !filter_app. simpl.
    rewrite !app_nil_r. auto.
  - intros self' w' user_question' message' t0 Hmsg' Hz'.
    rewrite (run_no_tool_calls self w user_question message t Hmsg Hz).
    rewrite (run_no_tool_calls self' w' user_question' message' t0 Hmsg' Hz').
    reflexivity.
Qed.

(** ** Concrete runs of [process_query] *)

Section Runs.
Import Py Engine Contract Scenarios.





Lemma scenario_parsed_payload arguments payload :
  Scenarios.json_loads arguments = Returns (VDict payload) ->
  parsed_payload engine (world (Returns (tool_call_completion arguments)))
    question payload.
Proof.
  intros Hj. eexists _, _. split; [|split].
  - eexists _, _. split; reflexivity.
  - eexists. reflexivity.
  - exact Hj.
Qed.

Local Abbreviation request_in w := (EvChatCompletion (request_of engine w question)).

(** Scenario A of the specification, on a table of seven customers. *)
Example run_top_customers :
  process_query engine top_customers_world question [] =
  ( Returns top_customers_envelope,
    [ request_in top_customers_world; EvConnect;
      EvExecute (VStr top_customers_sql); EvFetchmany 5; EvKeys; EvClose ] ).
Proof. vm_compute. reflexivity. Qed.

(** Scenario B. *)
Example run_timeout :
  process_query engine timeout_world question [] =
  ( Returns [("error", EText "OpenAI API call failed: Request timed out.")],
    [request_in timeout_world] ).
Proof. vm_compute. reflexivity. Qed.

(** Scenario C. *)
Example run_empty_query :
  process_query engine empty_query_world question [] =
  ( Returns [("error", EText "Missing query or rationale in the response")],
    [request_in empty_query_world] ).
Proof. vm_compute. reflexivity. Qed.

(** Scenario D. *)
Example run_missing_table :
  process_query engine missing_table_world question [] =
  ( Returns [("error",
              EText ("SQL execution failed: (sqlite3.OperationalError) "
                     ++ "no such table: nonexistent_table"))],
    [ request_in missing_table_world; EvConnect;
      EvExecute (VStr missing_table_sql); EvClose ] ).
Proof. vm_compute. reflexivity. Qed.

Lemma C1_witness :
  envelope_shape top_customers_envelope /\
  PyDict.keys top_customers_envelope = ["query"; "rationale"; "results"].
Proof.
  destruct (C1_envelope_has_exactly_one_shape engine top_customers_world
              question [] top_customers_envelope _ run_top_customers)
    as (Hshape & _ & _).
  split; [exact Hshape | reflexivity].
Defined.

Lemma C2_witness :
  exists rows t',
    process_query engine top_customers_world question [] =
    ( Returns [ ("query", EValue (VStr top_customers_sql));
                ("rationale", EValue (VStr "Rank customers by lifetime value"));
                ("results", ETable rows) ], t' ) /\
    length customers_by_clv = 7%nat /\
    length rows = 5%nat.
Proof.
  destruct (C2_results_are_the_first_five_rows engine top_customers_world
              question
              [ ("query", VStr top_customers_sql);
                ("rationale", VStr "Rank customers by lifetime value") ]
              top_customers_cursor [])
    as (rows & t' & Hrun & _ & _ & Hfive & _).
  - apply scenario_parsed_payload. reflexivity.
  - split; reflexivity.
  - repeat split; reflexivity.
  - exists rows, t'. split; [exact Hrun|]. split; [reflexivity|].
    apply Hfive. simpl. lia.
Defined.



Lemma C4_witness :
  empty_or_missing [("query", VStr ""); ("rationale", VStr "Nothing to run")]
    "query" /\
  process_query engine empty_query_world question [] =
  ( Returns [("error", EText "Missing query or rationale in the response")],
    [request_in empty_query_world] ).
Proof.
  assert (H : empty_or_missing
                [("query", VStr ""); ("rationale", VStr "Nothing to run")]
                "query").
  { right. right. reflexivity. }
  split; [exact H|].
  destruct (C4_incomplete_payload_short_circuits engine empty_query_world
              question _ [] (scenario_parsed_payload empty_query_arguments _ eq_refl)
              (or_introl H)) as (t' & Hrun & -> & _).
  exact Hrun.
Defined.

(** C5 as stated fails.  Arguments that are valid JSON but no object are
    decoded without error, [arguments.get] raises [AttributeError], the
    handler for [json.JSONDecodeError] does not apply, and the envelope is
    the one of a failed API call.  An object whose fields are numbers passes
    the validation and reaches the database. *)
Lemma C5_counterexample :
  ( Scenarios.json_loads "[1, 2]" = Returns (VList [VInt 1; VInt 2]) /\
    process_query engine array_world question [] =
    ( Returns [("error",
                EText "OpenAI API call failed: 'list' object has no attribute 'get'")],
      [request_in array_world] ) )
  /\
  ( Scenarios.json_loads number_fields_arguments
    = Returns (VDict [("query", VInt 5); ("rationale", VInt 7)]) /\
    process_query engine number_fields_world question [] =
    ( Returns [("error",
                EText ("SQL execution failed: "
                       ++ "expected string or bytes-like object, got 'int'"))],
      [ request_in number_fields_world; EvConnect; EvExecute (VInt 5);
        EvClose ] ) ).
Proof. repeat split; vm_compute; reflexivity. Qed.

Lemma C5_witness :
  exists t',
    process_query engine truncated_world question [] =
    ( Returns [("error",
                EText ("Failed to parse OpenAI response: "
                       ++ "Expecting value: line 1 column 11 (char 10)"))],
      t' ) /\
    db_calls t' = [].
Proof.
  destruct (C5_undecodable_arguments engine truncated_world question
              {| tool_calls := Some [ {| function_arguments := truncated_arguments |} ] |}
              {| function_arguments := truncated_arguments |}
              (JSONDecodeError "Expecting value: line 1 column 11 (char 10)") [])
    as (t' & Hrun & Hdb & _).
  - eexists _, _. split; reflexivity.
  - eexists. reflexivity.
  - reflexivity.
  - reflexivity.
  - exists t'. split; [exact Hrun | exact Hdb].
Defined.

Lemma C6_witness :
  exists t',
    process_query engine no_tool_call_world question [] =
    (Returns [("error", EText "No tool calls found in the response")], t') /\
    db_calls t' = [].
Proof.
  destruct (C6_no_tool_call engine no_tool_call_world question
              {| tool_calls := None |} [])
    as ((t' & Hrun & Hdb & _) & _).
  - eexists _, _. split; reflexivity.
  - left. reflexivity.
  - exists t'. split; [exact Hrun | exact Hdb].
Defined.

Lemma C7_witness :
  exists t_db,
    process_query engine missing_table_world question [] =
    ( Returns [("error",
                EText ("SQL execution failed: (sqlite3.OperationalError) "
                       ++ "no such table: nonexistent_table"))],
      [request_in missing_table_world] ++ t_db ) /\
    (executions t_db <= 1)%nat.
Proof.
  destruct (C7_database_errors_are_isolated engine missing_table_world question
              [ ("query", VStr missing_table_sql);
                ("rationale", VStr "List everything") ]
              (OperationalError
                 "(sqlite3.OperationalError) no such table: nonexistent_table")
              [])
    as (t_db & Hrun & Hexec & _).
  - apply scenario_parsed_payload. reflexivity.
  - split; reflexivity.
  - apply ExecuteFails; reflexivity.
  - reflexivity.
  - exists t_db. split; [exact Hrun | exact Hexec].
Defined.

End Runs.

(** ** The schema provider *)

(** C9: [_load_schema] is deterministic and has no effect: on every engine
    and after every trace it returns the same text and leaves the trace as
    it is, so any two calls, in a row or not, give identical text. *)
Theorem C9_load_schema_is_deterministic :
  forall (self1 self2 : Engine.TextToSQLEngine) (t1 t2 : list Engine.event),
    Engine._load_schema self1 t1 = (Py.Returns Engine.schema_text, t1) /\
    Engine._load_schema self2 t2 = (Py.Returns Engine.schema_text, t2) /\
    fst (Engine._load_schema self1 t1) = fst (Engine._load_schema self2 t2) /\
    Py.bind (Engine._load_schema self1)
      (fun first =>
         Py.bind (Engine._load_schema self1)
           (fun second => Py.ret (String.eqb first second))) t1
    = (Py.Returns true, t1).
Proof.
  intros self1 self2 t1 t2.
  unfold Engine._load_schema, Py.bind, Py.ret. cbv zeta.
  rewrite String.eqb_refl. repeat split.
Qed.

(** ** [formatters.py] *)

Section FormatterFacts.
Import Py Formatters Rendering.
Local Open Scope string_scope.

Example render_sales :
  format_results_as_markdown_table sales_results =
  Rendered (LF ++ "**Results:**" ++ LF
            ++ "| name | orders | clv | note |" ++ LF
            ++ "| --- | --- | --- | --- |" ++ LF
            ++ "| Ada | 1,234,567 | 1,234,567.88 | None |" ++ LF
            ++ "| Ben | -12 | -0.00 | new |" ++ LF).
Proof. vm_compute. reflexivity. Qed.

(** *** Strings *)

Lemma append_assoc (a b c : string) : (a ++ b) ++ c = a ++ (b ++ c).
Proof.
  induction a as [|ch a IH]; simpl; [reflexivity | now rewrite IH].
Qed.

Lemma append_nil_r (a : string) : a ++ "" = a.
Proof.
  induction a as [|ch a IH]; simpl; [reflexivity | now rewrite IH].
Qed.

Lemma concat_empty_cons (x : string) (xs : list string) :
  String.concat "" (x :: xs) = x ++ String.concat "" xs.
Proof.
  destruct xs as [|y xs]; simpl; [now rewrite append_nil_r | reflexivity].
Qed.

(** *** Thousands separators *)

Lemma group_rev_separated : forall (n : nat) (ds : list ascii),
  (length ds <= n)%nat -> ds <> [] -> separated_rev (group_rev ds) ds.
Proof.
  induction n as [|n IH]; intros ds Hlen Hne.
  - destruct ds; [contradiction | simpl in Hlen; lia].
  - destruct ds as [|a [|b [|c [|d rest]]]]; try contradiction;
      try (apply LastGroup; simpl; lia).
    change (group_rev (a :: b :: c :: d :: rest))
      with ([a; b; c] ++ comma :: group_rev (d :: rest))%list.
    change (a :: b :: c :: d :: rest) with ([a; b; c] ++ d :: rest)%list.
    apply EarlierGroup; [reflexivity|].
    apply IH; [simpl in *; lia | discriminate].
Qed.

Lemma separated_rev_rev text plain :
  separated_rev text plain -> thousands_separated (rev text) (rev plain).
Proof.
  induction 1 as [group Hlen | group text plain Hlen _ IH].
  - apply LeadingGroup. now rewrite length_rev.
  - rewrite !rev_app_distr. simpl. rewrite <- app_assoc. simpl.
    apply NextGroup; [exact IH | now rewrite length_rev].
Qed.

Lemma thousands_separates (ds : list ascii) :
  ds <> [] -> thousands_separated (thousands ds) ds.
Proof.
  intros Hne. unfold thousands.
  rewrite <- (rev_involutive ds) at 2.
  apply separated_rev_rev.
  apply (group_rev_separated (length (rev ds))); [lia|].
  intros Hnil. apply Hne. rewrite <- (rev_involutive ds), Hnil. reflexivity.
Qed.

Lemma string_of_uint_nonempty (d : Decimal.uint) :
  d <> Decimal.Nil -> DecimalString.NilEmpty.string_of_uint d <> "".
Proof.
  destruct d; simpl; congruence.
Qed.

Lemma digits_of_nonempty (n : N) : digits_of n <> [].
Proof.
  unfold digits_of. intros H.
  apply (f_equal string_of_list_ascii) in H.
  rewrite string_of_list_ascii_of_string in H. simpl in H.
  revert H. apply string_of_uint_nonempty.
  destruct n as [|p]; simpl; [discriminate|].
  apply DecimalPos.Unsigned.to_uint_nonnil.
Qed.

(** The digits are the decimal numeral of the number. *)
Lemma digits_of_value (n : N) :
  option_map N.of_uint
    (DecimalString.NilEmpty.uint_of_string
       (string_of_list_ascii (digits_of n))) = Some n.
Proof.
  unfold digits_of. rewrite string_of_list_ascii_of_string.
  rewrite DecimalString.NilEmpty.usu. simpl.
  now rewrite DecimalN.Unsigned.of_to.
Qed.

Lemma grouped_separated (n : N) :
  exists text,
    grouped n = string_of_list_ascii text /\
    thousands_separated text (digits_of n).
Proof.
  exists (thousands (digits_of n)). split; [reflexivity|].
  apply thousands_separates, digits_of_nonempty.
Qed.

(** *** Rounding to hundredths *)

Lemma round_half_even_nearest (num den : N) :
  (0 < den)%N ->
  (2 * round_half_even num den * den <= 2 * num + den)%N /\
  (2 * num <= 2 * round_half_even num den * den + den)%N.
Proof.
  intros Hden. unfold round_half_even.
  pose proof (N.div_mod num den ltac:(lia)) as Hdm.
  pose proof (N.mod_lt num den ltac:(lia)) as Hlt.
  set (q := (num / den)%N) in *. set (r := (num mod den)%N) in *.
  destruct (N.compare_spec (2 * r) den) as [Heq|Hl|Hg];
    [destruct (N.even q)|..]; nia.
Qed.

Lemma hundredths_nearest (m : positive) (e : Z) :
  nearest_hundredths m e (hundredths m e).
Proof.
  unfold nearest_hundredths, hundredths. destruct e as [|p|p];
    try reflexivity.
  apply round_half_even_nearest.
  apply N.neq_0_lt_0, N.pow_nonzero. discriminate.
Qed.

Lemma digit_char_digit (d : N) :
  (d < 10)%N ->
  is_digit (digit_char d) = true /\ N_of_ascii (digit_char d) = (48 + d)%N.
Proof.
  intros Hd. unfold digit_char, is_digit.
  rewrite N_ascii_embedding by lia.
  split; [|reflexivity].
  apply andb_true_intro. split; apply N.leb_le; lia.
Qed.

(** *** Cells *)

Lemma format_cell_value_rendering (value : atom) :
  cell_rendering value (format_cell_value value).
Proof.
  destruct value as [|b|n|x|s]; simpl.
  - apply NoneCell.
  - destruct b; [exact (BoolCell true) | exact (BoolCell false)].
  - unfold format_int.
    destruct (grouped_separated (Z.abs_N n)) as (text & -> & Hsep).
    now apply IntCell.
  - destruct x as [sg|sg| |sg m e]; simpl.
    + apply ZeroFloatCell.
    + apply InfiniteFloatCell.
    + apply NanFloatCell.
    + set (h := hundredths m e).
      destruct (grouped_separated (h / 100)) as (text & -> & Hsep).
      assert (Hr : (h mod 100 < 100)%N) by (apply N.mod_lt; lia).
      assert (H1 : (h mod 100 / 10 < 10)%N)
        by (apply N.Div0.div_lt_upper_bound; lia).
      assert (H2 : ((h mod 100) mod 10 < 10)%N) by (apply N.mod_lt; lia).
      destruct (digit_char_digit _ H1) as [Hd1 Hv1].
      destruct (digit_char_digit _ H2) as [Hd2 Hv2].
      unfold two_digits.
      apply FiniteFloatCell with (h := h); auto.
      apply hundredths_nearest.
  - apply StrCell.
Qed.

(** *** Tables *)

Lemma format_cells_complete (row : PyDict.dict atom) (headers : list string) :
  (forall col, In col headers -> PyDict.get row col <> None) ->
  format_cells row headers = inl (cells_of headers row).
Proof.
  induction headers as [|col headers IH]; intros Hall; simpl; [reflexivity|].
  unfold value_at.
  destruct (PyDict.get row col) as [value|] eqn:Hget.
  - rewrite IH; [reflexivity|]. intros c Hc. apply Hall. now right.
  - exfalso. apply (Hall col); [now left | exact Hget].
Qed.

Lemma format_cells_missing (row : PyDict.dict atom) (headers : list string) key :
  format_cells row headers = inr key ->
  In key headers /\ PyDict.get row key = None.
Proof.
  induction headers as [|col headers IH]; simpl; [discriminate|].
  destruct (PyDict.get row col) as [value|] eqn:Hget.
  - destruct (format_cells row headers) as [cells|k]; [discriminate|].
    intros [= <-]. destruct (IH eq_refl) as [Hin Hnone]. auto.
  - intros [= <-]. auto.
Qed.

Lemma add_rows_complete headers : forall results table,
  rows_have headers results ->
  add_rows table headers results =
  Rendered (table ++ String.concat ""
                       (map markdown_line (map (cells_of headers) results))).
Proof.
  induction results as [|row results IH]; intros table Hall; simpl.
  - now rewrite append_nil_r.
  - rewrite format_cells_complete.
    + rewrite IH.
      * rewrite append_assoc.
        destruct (map markdown_line (map (cells_of headers) results)) eqn:E;
          [simpl; now rewrite append_nil_r | reflexivity].
      * intros r c Hr Hc. apply Hall; [now right | exact Hc].
    + intros c Hc. apply Hall; [now left | exact Hc].
Qed.

Lemma add_rows_missing headers key : forall results table,
  add_rows table headers results = KeyError key ->
  exists row, In row results /\ In key headers /\ PyDict.get row key = None.
Proof.
  induction results as [|row results IH]; intros table; simpl; [discriminate|].
  destruct (format_cells row headers) as [cells|k] eqn:Hcells.
  - intros H. destruct (IH _ H) as (r & Hr & Hk & Hnone). exists r. auto.
  - intros [= <-]. apply format_cells_missing in Hcells.
    exists row. tauto.
Qed.

Lemma format_cells_incomplete (row : PyDict.dict atom) col :
  forall headers,
    In col headers -> PyDict.get row col = None ->
    exists key, format_cells row headers = inr key.
Proof.
  induction headers as [|h headers IH]; intros Hin Hnone; [contradiction|].
  simpl. destruct (PyDict.get row h) as [value|] eqn:Hget; [|eauto].
  destruct Hin as [-> | Hin]; [congruence|].
  destruct (IH Hin Hnone) as (key & ->). eauto.
Qed.

Lemma format_cells_first_missing (row : PyDict.dict atom) key later :
  forall seen,
    (forall col, In col seen -> PyDict.get row col <> None) ->
    PyDict.get row key = None ->
    format_cells row (seen ++ key :: later) = inr key.
Proof.
  induction seen as [|h seen IH]; intros Hseen Hnone; simpl.
  - now rewrite Hnone.
  - destruct (PyDict.get row h) as [value|] eqn:Hget.
    + rewrite IH; [reflexivity | | exact Hnone].
      intros col Hcol. apply Hseen. now right.
    + exfalso. apply (Hseen h); [now left | exact Hget].
Qed.

Lemma add_rows_incomplete headers row col : forall results table,
  In row results -> In col headers -> PyDict.get row col = None ->
  exists key, add_rows table headers results = KeyError key.
Proof.
  induction results as [|r results IH]; intros table Hrow Hcol Hnone;
    [contradiction|].
  simpl. destruct (format_cells r headers) as [cells|k] eqn:Hcells; [|eauto].
  destruct Hrow as [-> | Hrow].
  - destruct (format_cells_incomplete row col headers Hcol Hnone) as (key & H).
    congruence.
  - now apply IH.
Qed.

Lemma add_rows_first_missing headers row key after : forall before table,
  rows_have headers before ->
  format_cells row headers = inr key ->
  add_rows table headers (before ++ row :: after) = KeyError key.
Proof.
  induction before as [|r before IH]; intros table Hall Hcells; simpl.
  - now rewrite Hcells.
  - rewrite format_cells_complete.
    + apply IH; [|exact Hcells].
      intros r' c Hr Hc. apply Hall; [now right | exact Hc].
    + intros c Hc. apply Hall; [now left | exact Hc].
Qed.

(** C8, as the code has it, for results whose integer cells the interpreter
    converts to text (at most 4300 digits).  For an empty list the text is
    the message "No results found."; for a list whose rows all have the keys
    of the first row the text is a markdown table with the first row's keys
    as headers and one line per row.  A row without one of those keys ends
    the rendering with [KeyError]: whenever some row lacks a key of the first
    row there is no text, the key reported is the first such key of the first
    such row, and [KeyError] has no other cause.  A finite float cell shows
    its value rounded to hundredths, the integer part with thousands
    separators and exactly two decimals; a zero shows [0.00]; an infinity or
    a NaN shows [inf], [-inf] or [nan]; an integer cell (and a boolean, as 1
    or 0) shows its digits with thousands separators; [None] and strings
    show their [str]. *)
Theorem C8_markdown_table (results : list (PyDict.dict atom)) :
  cells_within_limit results ->
  (results = [] ->
   format_results_as_markdown_table results =
   Rendered (LF ++ "**Results:** No results found."))
  /\
  (forall first rest,
      results = first :: rest ->
      rows_have (PyDict.keys first) results ->
      format_results_as_markdown_table results =
      Rendered (LF ++ "**Results:**" ++ LF
                ++ markdown_table (PyDict.keys first)
                     (map (cells_of (PyDict.keys first)) results)))
  /\
  (forall first rest row col,
      results = first :: rest ->
      In row results -> In col (PyDict.keys first) ->
      PyDict.get row col = None ->
      exists key, format_results_as_markdown_table results = KeyError key)
  /\
  (forall first rest before row after seen key later,
      results = first :: rest ->
      results = (before ++ row :: after)%list ->
      rows_have (PyDict.keys first) before ->
      PyDict.keys first = (seen ++ key :: later)%list ->
      (forall col, In col seen -> PyDict.get row col <> None) ->
      PyDict.get row key = None ->
      format_results_as_markdown_table results = KeyError key)
  /\
  (forall first rest key,
      results = first :: rest ->
      format_results_as_markdown_table results = KeyError key ->
      exists row,
        In row results /\ In key (PyDict.keys first) /\
        PyDict.get row key = None)
  /\
  (forall row col value,
      In row results -> PyDict.get row col = Some value ->
      cell_rendering value (format_cell_value value)).
Proof.
  intros _.
  split; [|split; [|split; [|split; [|split]]]].
  - intros ->. reflexivity.
  - intros first rest -> Hall.
    unfold format_results_as_markdown_table.
    rewrite (add_rows_complete _ _ _ Hall).
    unfold markdown_table. f_equal.
    rewrite !append_assoc. reflexivity.
  - intros first rest row col -> Hrow Hcol Hnone.
    unfold format_results_as_markdown_table.
    match goal with
    | |- context [add_rows ?table ?headers ?rows] =>
        destruct (add_rows_incomplete headers row col rows table
                    Hrow Hcol Hnone) as (key & ->)
    end.
    eauto.
  - intros first rest before row after seen key later Hfirst Hsplit Hall
           Hkeys Hseen Hnone.
    subst results.
    unfold format_results_as_markdown_table.
    rewrite Hsplit.
    rewrite (add_rows_first_missing (PyDict.keys first) row key after
               before _ Hall); [reflexivity|].
    rewrite Hkeys. now apply format_cells_first_missing.
  - intros first rest key -> Hkey.
    unfold format_results_as_markdown_table in Hkey.
    destruct (add_rows _ (PyDict.keys first) (first :: rest)) as [text|k] eqn:E;
      [discriminate|].
    injection Hkey as ->. exact (add_rows_missing _ _ _ _ E).
  - intros row col value _ _. apply format_cell_value_rendering.
Qed.

(** C8 as stated fails: an infinite float is shown as [inf], without
    decimals, and a list whose second row lacks a key of the first does not
    render at all. *)
Lemma C8_counterexample :
  format_results_as_markdown_table overflow_results =
  Rendered (LF ++ "**Results:**" ++ LF
            ++ "| x |" ++ LF ++ "| --- |" ++ LF ++ "| inf |" ++ LF)
  /\
  format_results_as_markdown_table uneven_results = KeyError "a".
Proof. split; vm_compute; reflexivity. Qed.

Lemma sales_within_limit : cells_within_limit sales_results.
Proof.
  intros row col n [<-|[<-|[]]] Hget; simpl in Hget;
    repeat match type of Hget with
           | (if ?c then _ else _) = _ => destruct c
           end;
    try discriminate; injection Hget as <-; vm_compute; reflexivity.
Defined.

Lemma uneven_within_limit : cells_within_limit uneven_results.
Proof.
  intros row col n [<-|[<-|[]]] Hget; simpl in Hget;
    repeat match type of Hget with
           | (if ?c then _ else _) = _ => destruct c
           end;
    try discriminate; injection Hget as <-; vm_compute; reflexivity.
Defined.

Lemma C8_witness :
  ( cells_within_limit sales_results /\
    rows_have ["name"; "orders"; "clv"; "note"] sales_results /\
    format_results_as_markdown_table sales_results =
    Rendered (LF ++ "**Results:**" ++ LF
              ++ markdown_table ["name"; "orders"; "clv"; "note"]
                   [ ["Ada"; "1,234,567"; "1,234,567.88"; "None"];
                     ["Ben"; "-12"; "-0.00"; "new"] ]) )
  /\
  ( cells_within_limit uneven_results /\
    PyDict.get [("b", AInt 2)] "a" = None /\
    format_results_as_markdown_table uneven_results = KeyError "a" ).
Proof.
  split.
  - assert (H : rows_have ["name"; "orders"; "clv"; "note"] sales_results).
    { intros row col [<-|[<-|[]]] Hcol; simpl in Hcol;
        repeat (destruct Hcol as [<-|Hcol]; [discriminate|]); contradiction. }
    split; [exact sales_within_limit|].
    split; [exact H|].
    destruct (C8_markdown_table sales_results sales_within_limit)
      as (_ & Htable & _).
    exact (Htable _ _ eq_refl H).
  - split; [exact uneven_within_limit|].
    split; [reflexivity|].
    destruct (C8_markdown_table uneven_results uneven_within_limit)
      as (_ & _ & _ & Hkey & _).
    apply (Hkey [("a", AInt 1)] [[("b", AInt 2)]]
                [[("a", AInt 1)]] [("b", AInt 2)] [] [] "a" []);
      try reflexivity.
    + intros row col [<-|[]] [<-|[]]. discriminate.
    + intros col [].
Defined.

End FormatterFacts.

(** * Further properties *)

(** ** More of [process_query] *)

Section MoreOfProcessQuery.
Import Py Engine Contract Further.

Variable self : TextToSQLEngine.
Variable w : World.
Variable user_question : string.

Local Abbreviation request := (request_of self w user_question).

Lemma db_calls_after_model_call (t : list event) :
  db_calls (t ++ [EvChatCompletion request]) = db_calls t.
Proof.
  unfold db_calls. rewrite filter_app. simpl. now rewrite app_nil_r.
Qed.

(** X1: when the call of the completion service raises an exception (a
    timeout, a refused key, a rate limit), the envelope carries "OpenAI API
    call failed: " and the message of that exception, and the database is
    not touched. *)
Theorem api_failure_is_reported (e : exn) (t : list event) :
  chat_completions_create w request = Raises e ->
  isinstance_Exception e = true ->
  exists t',
    process_query self w user_question t =
    (Returns [("error", EText ("OpenAI API call failed: " ++ exn_str e))], t') /\
    db_calls t' = db_calls t.
Proof.
  intros Hc He. eexists. split.
  - rewrite (run_api_raises self w user_question e t Hc), He. reflexivity.
  - apply db_calls_after_model_call.
Qed.

(** X2: a completion without any choice makes [choices[0]] raise
    [IndexError]; the envelope then reports a failed API call with the text
    "list index out of range". *)
Theorem empty_choices_are_reported (completion : Completion) (t : list event) :
  chat_completions_create w request = Returns completion ->
  choices completion = [] ->
  exists t',
    process_query self w user_question t =
    ( Returns [("error",
                EText "OpenAI API call failed: list index out of range")],
      t' ) /\
    db_calls t' = db_calls t.
Proof.
  intros Hc Hm. eexists. split.
  - apply (run_no_choices self w user_question completion t Hc Hm).
  - apply db_calls_after_model_call.
Qed.

(** X3: when the arguments of the tool call decode to something that is no
    dictionary (a list, a string, a number, [null]), the envelope reports a
    failed API call and names the type that has no [get]; the database is
    not touched. *)
Theorem non_object_payload_is_reported (message : Message)
    (tool_call : ToolCall) (v : value) (t : list event) :
  model_message self w user_question message ->
  first_tool_call message tool_call ->
  json_loads w (function_arguments tool_call) = Returns v ->
  not_a_dict v ->
  exists t',
    process_query self w user_question t =
    ( Returns [("error",
                EText ("OpenAI API call failed: '" ++ type_name v
                       ++ "' object has no attribute 'get'"))],
      t' ) /\
    db_calls t' = db_calls t.
Proof.
  intros Hmsg Hcall Hj Hv. eexists. split.
  - apply (run_not_a_dict self w user_question message tool_call v t
             Hmsg Hcall Hj Hv).
  - apply db_calls_after_model_call.
Qed.

(** X4: the validation is by truth value: a [query] or a [rationale] that
    is [0], [false], an empty list or an empty object is refused exactly
    like a missing one, and nothing is executed. *)
Theorem falsy_fields_are_refused (payload : PyDict.dict value)
    (field : string) (v : value) (t : list event) :
  parsed_payload self w user_question payload ->
  field = "query" \/ field = "rationale" ->
  PyDict.get payload field = Some v ->
  In v [ VInt 0; VAtom (ABool false); VList []; VDict [];
         VAtom (AFloat (S754_zero false)); VAtom (AFloat (S754_zero true)) ] ->
  exists t',
    process_query self w user_question t =
    ( Returns [("error", EText "Missing query or rationale in the response")],
      t' ) /\
    db_calls t' = db_calls t.
Proof.
  intros Hp Hfield Hget Hv. eexists. split.
  - apply (run_incomplete self w user_question payload t Hp).
    assert (Hfalse : truthy v = false).
    { simpl in Hv.
      destruct Hv as [<-|[<-|[<-|[<-|[<-|[<-|[]]]]]]]; reflexivity. }
    unfold field_of.
    destruct Hfield as [-> | ->]; rewrite Hget; auto.
  - apply db_calls_after_model_call.
Qed.

Lemma execute_and_fetch_trace (sql_query rationale : value) (t : list event) :
  exists t_db,
    snd (execute_and_fetch w sql_query rationale t) = t ++ t_db /\
    db_run w sql_query t_db.
Proof.
  unfold db_run, execute_and_fetch, fetchmany, keys, with_, bind, call, ret.
  destruct (engine_connect w) as [[]|e] eqn:Hconn.
  - destruct (connection_execute w sql_query) as [result|e];
      [destruct (fetch_error result) as [e|]|];
      destruct (connection_exit w) as [[]|e'];
      simpl; rewrite <- ?app_assoc; simpl;
      eexists; (split; [reflexivity|]); right; (split; [reflexivity|]);
      first
        [ exists [EvExecute sql_query]; split; [reflexivity | auto]
        | exists [EvExecute sql_query; EvFetchmany 5];
          split; [reflexivity | auto]
        | exists [EvExecute sql_query; EvFetchmany 5; EvKeys];
          split; [reflexivity | auto] ].
  - simpl. exists [EvConnect]. split; [reflexivity|]. left.
    split; [congruence | reflexivity].
Qed.

(** The calls a run adds to the trace: the model call, then nothing or one
    pass through the database. *)
Lemma run_trace (t : list event) :
  exists t_db,
    snd (process_query self w user_question t)
      = t ++ EvChatCompletion request :: t_db /\
    (t_db = [] \/ exists sql_query, db_run w sql_query t_db).
Proof.
  destruct (chat_completions_create w request) as [completion|e] eqn:Hc.
  2:{ rewrite (run_api_raises self w user_question e t Hc). exists []. auto. }
  destruct (choices completion) as [|message others] eqn:Hm.
  { rewrite (run_no_choices self w user_question completion t Hc Hm).
    exists []. auto. }
  assert (Hmsg : model_message self w user_question message).
  { exists completion, others. auto. }
  destruct (tool_calls message) as [[|tool_call calls]|] eqn:Htc.
  1,3: rewrite (run_no_tool_calls self w user_question message t Hmsg);
    [ exists []; auto | unfold zero_tool_calls; auto ].
  assert (Hcall : first_tool_call message tool_call).
  { exists calls. exact Htc. }
  destruct (json_loads w (function_arguments tool_call)) as [v|e] eqn:Hj.
  2:{ rewrite (run_decode_raises self w user_question message tool_call e t
                 Hmsg Hcall Hj).
      exists []. auto. }
  assert (Hnd : not_a_dict v ->
            exists t_db,
              snd (process_query self w user_question t)
                = t ++ EvChatCompletion request :: t_db /\
              (t_db = [] \/ exists sql_query, db_run w sql_query t_db)).
  { intros Hv.
    rewrite (run_not_a_dict self w user_question message tool_call v t
               Hmsg Hcall Hj Hv).
    exists []. auto. }
  destruct v as [a|items|payload];
    [ apply Hnd; exact I | apply Hnd; exact I | clear Hnd ].
  assert (Hp : parsed_payload self w user_question payload).
  { exists message, tool_call. auto. }
  rewrite (run_payload self w user_question payload t Hp).
  destruct (negb (truthy (field_of payload "query"))
            || negb (truthy (field_of payload "rationale"))).
  { exists []. auto. }
  destruct (execute_and_fetch_trace (field_of payload "query")
              (field_of payload "rationale")
              (t ++ [EvChatCompletion request])) as (t_db & Htrace & Hrun).
  exists t_db. split; [|eauto].
  unfold try_except, ret.
  destruct (execute_and_fetch w (field_of payload "query")
              (field_of payload "rationale")
              (t ++ [EvChatCompletion request])) as [[envelope|e] t'];
    simpl in Htrace; subst t'; rewrite <- app_assoc; simpl;
    [reflexivity|].
  destruct (isinstance_Exception e) eqn:He; simpl; [reflexivity|].
  rewrite He. reflexivity.
Qed.

(** X5: one call of [process_query] keeps what the trace held, calls the
    model exactly once, and executes at most one statement: there is no
    retry and no second generation. *)
Theorem one_model_call_one_execution (t : list event) :
  exists added,
    snd (process_query self w user_question t) = t ++ added /\
    model_calls added = 1%nat /\
    (executions added <= 1)%nat /\
    (length (filter is_connect_event added) <= 1)%nat.
Proof.
  destruct (run_trace t) as (t_db & Htrace & Hdb).
  exists (EvChatCompletion request :: t_db). split; [exact Htrace|].
  unfold model_calls, executions. simpl.
  destruct Hdb as [-> | (sql_query & [[_ ->] | (_ & used & -> & Hused)])];
    [simpl; lia | simpl; lia |].
  destruct Hused as [-> | [-> | ->]]; simpl; lia.
Qed.

(** X6: a connection that was opened is closed before [process_query]
    ends, whatever happens in between (the statement fails, fetching fails,
    or an exception passes through that no handler catches): the last call
    of such a run is the release of the connection, and one connection is
    opened at most. *)
Theorem opened_connection_is_closed (t : list event) :
  engine_connect w = Returns tt ->
  exists added,
    snd (process_query self w user_question t) = t ++ added /\
    length (filter is_close_event added)
    = length (filter is_connect_event added) /\
    (In EvConnect added -> exists before, added = before ++ [EvClose]).
Proof.
  intros Hconn.
  destruct (run_trace t) as (t_db & Htrace & Hdb).
  exists (EvChatCompletion request :: t_db). split; [exact Htrace|].
  destruct Hdb as [-> | (sql_query & [[Hno _] | (_ & used & -> & Hused)])].
  - split; [reflexivity|]. simpl. intros [H|[]]. discriminate H.
  - contradiction.
  - split.
    + destruct Hused as [-> | [-> | ->]]; reflexivity.
    + intros _. exists (EvChatCompletion request :: EvConnect :: used).
      reflexivity.
Qed.

End MoreOfProcessQuery.

Section MoreRuns.
Import Py Engine Contract Further Scenarios.

Lemma api_failure_is_reported_witness :
  exists t',
    process_query engine timeout_world question [] =
    ( Returns [("error", EText "OpenAI API call failed: Request timed out.")],
      t' ) /\
    db_calls t' = [].
Proof.
  apply (api_failure_is_reported engine timeout_world question
           (APITimeoutError "Request timed out.") []); reflexivity.
Defined.

Lemma empty_choices_are_reported_witness :
  exists t',
    process_query engine no_choice_world question [] =
    ( Returns [("error",
                EText "OpenAI API call failed: list index out of range")],
      t' ) /\
    db_calls t' = [].
Proof.
  apply (empty_choices_are_reported engine no_choice_world question
           {| choices := [] |} []); reflexivity.
Defined.

Lemma non_object_payload_is_reported_witness :
  exists t',
    process_query engine array_world question [] =
    ( Returns [("error",
                EText ("OpenAI API call failed: '" ++ "list"
                       ++ "' object has no attribute 'get'"))],
      t' ) /\
    db_calls t' = [].
Proof.
  apply (non_object_payload_is_reported engine array_world question
           {| tool_calls := Some [ {| function_arguments := array_arguments |} ] |}
           {| function_arguments := array_arguments |}
           (VList [VInt 1; VInt 2]) []).
  - eexists _, _. split; reflexivity.
  - eexists. reflexivity.
  - reflexivity.
  - exact I.
Defined.

Lemma falsy_fields_are_refused_witness :
  exists t',
    process_query engine zero_query_world question [] =
    ( Returns [("error", EText "Missing query or rationale in the response")],
      t' ) /\
    db_calls t' = [].
Proof.
  apply (falsy_fields_are_refused engine zero_query_world question
           zero_query_payload "query" (VInt 0) []).
  - eexists _, _. split; [|split].
    + eexists _, _. split; reflexivity.
    + eexists. reflexivity.
    + reflexivity.
  - left. reflexivity.
  - reflexivity.
  - left. reflexivity.
Defined.

Lemma opened_connection_is_closed_witness :
  exists added,
    snd (process_query engine missing_table_world question []) = [] ++ added /\
    length (filter is_close_event added)
    = length (filter is_connect_event added) /\
    (In EvConnect added -> exists before, added = before ++ [EvClose]).
Proof.
  apply (opened_connection_is_closed engine missing_table_world question []).
  reflexivity.
Defined.

End MoreRuns.

(** ** More of the formatters *)

Section MoreOfFormatters.
Import Py Engine Contract Formatters Rendering Further.
Local Open Scope string_scope.

Lemma strip_commas_filter (l : list ascii) :
  strip_commas (string_of_list_ascii l)
  = string_of_list_ascii (filter not_comma l).
Proof.
  induction l as [|c l IH]; simpl; [reflexivity|].
  unfold not_comma at 1.
  destruct (Ascii.eqb c comma); simpl; now rewrite IH.
Qed.

Lemma separated_filter text plain :
  thousands_separated text plain ->
  filter not_comma text = filter not_comma plain.
Proof.
  induction 1 as [group _ | text plain group _ IH _]; [reflexivity|].
  rewrite !filter_app, IH. reflexivity.
Qed.

Lemma uint_digits_not_comma (d : Decimal.uint) :
  forallb not_comma
    (list_ascii_of_string (DecimalString.NilEmpty.string_of_uint d)) = true.
Proof.
  induction d; simpl; auto.
Qed.

Lemma filter_all {A} (p : A -> bool) (l : list A) :
  forallb p l = true -> filter p l = l.
Proof.
  induction l as [|x l IH]; simpl; [reflexivity|].
  destruct (p x); simpl; [intros H; now rewrite IH | discriminate].
Qed.

Lemma strip_commas_grouped (n : N) :
  strip_commas (grouped n) = string_of_list_ascii (digits_of n).
Proof.
  unfold grouped. rewrite strip_commas_filter.
  rewrite (separated_filter _ (digits_of n)).
  - rewrite filter_all; [reflexivity|]. apply uint_digits_not_comma.
  - apply thousands_separates, digits_of_nonempty.
Qed.

Lemma plain_numeral (n : Z) :
  sign_text (Z.ltb n 0) ++ string_of_list_ascii (digits_of (Z.abs_N n))
  = DecimalString.NilEmpty.string_of_int (Z.to_int n).
Proof.
  unfold digits_of. rewrite string_of_list_ascii_of_string.
  destruct n; reflexivity.
Qed.

(** X7: the thousands separators of an integer cell lose nothing: for an
    integer that the interpreter converts to text (at most 4300 digits;
    beyond, [format_cell_value] raises [ValueError]), the text of
    [format_cell_value] with the commas taken out is the decimal numeral of
    the integer and reads back as that integer. *)
Theorem integer_cell_reads_back (n : Z) :
  int_within_limit n ->
  strip_commas (format_cell_value (AInt n))
  = DecimalString.NilEmpty.string_of_int (Z.to_int n) /\
  parse_int (strip_commas (format_cell_value (AInt n))) = Some n.
Proof.
  intros _.
  assert (H : strip_commas (format_cell_value (AInt n))
              = DecimalString.NilEmpty.string_of_int (Z.to_int n)).
  { simpl. unfold format_int. rewrite <- plain_numeral.
    destruct (Z.ltb n 0); simpl; now rewrite strip_commas_grouped. }
  split; [exact H|].
  unfold parse_int. rewrite H, DecimalString.NilEmpty.isi. simpl.
  now rewrite DecimalZ.of_to.
Qed.

Lemma integer_cell_reads_back_witness :
  int_within_limit (-1234567) /\
  format_cell_value (AInt (-1234567)) = "-1,234,567" /\
  strip_commas (format_cell_value (AInt (-1234567))) = "-1234567" /\
  parse_int (strip_commas (format_cell_value (AInt (-1234567))))
  = Some (-1234567)%Z.
Proof.
  assert (H : int_within_limit (-1234567)) by (vm_compute; reflexivity).
  split; [exact H|].
  split; [reflexivity|].
  destruct (integer_cell_reads_back (-1234567) H) as [Hstrip Hparse].
  split; [exact Hstrip | exact Hparse].
Defined.

Lemma In_firstn {A} (n : nat) (l : list A) (x : A) :
  In x (firstn n l) -> In x l.
Proof.
  intros H. rewrite <- (firstn_skipn n l). apply in_or_app. now left.
Qed.

Lemma render_complete (first : PyDict.dict atom) rest :
  rows_have (PyDict.keys first) (first :: rest) ->
  exists text,
    format_results_as_markdown_table (first :: rest) = Rendered text.
Proof.
  intros Hall. unfold format_results_as_markdown_table.
  rewrite (add_rows_complete _ _ _ Hall). eauto.
Qed.

Lemma results_of_a_query_render_core (self : TextToSQLEngine) (w : World)
    (user_question : string) (payload : PyDict.dict value)
    (result : CursorResult) (t : list event) :
  parsed_payload self w user_question payload ->
  complete_payload payload ->
  execution_succeeds w (field_of payload "query") result ->
  full_rows result ->
  exists text,
    process_query self w user_question t =
    ( Returns (success_envelope payload result),
      (t ++ [ EvChatCompletion (request_of self w user_question); EvConnect;
              EvExecute (field_of payload "query"); EvFetchmany 5; EvKeys;
              EvClose ])%list ) /\
    format_results_as_markdown_table
      (map (PyDict.of_zip (column_keys result)) (firstn 5 (all_rows result)))
    = Rendered text.
Proof.
  intros Hp Hcomplete Hok Hfull.
  assert (Hkeys : forall mapping,
             In mapping (map (PyDict.of_zip (column_keys result))
                           (firstn 5 (all_rows result))) ->
             PyDict.keys mapping = PyDict.first_occurrences (column_keys result)).
  { intros mapping Hin. apply in_map_iff in Hin.
    destruct Hin as (row & <- & Hrow). apply In_firstn in Hrow.
    unfold PyDict.of_zip. rewrite keys_of_pairs, map_fst_combine; [reflexivity|].
    now apply Hfull. }
  assert (Htext : exists text,
             format_results_as_markdown_table
               (map (PyDict.of_zip (column_keys result))
                  (firstn 5 (all_rows result))) = Rendered text).
  { destruct (map (PyDict.of_zip (column_keys result))
                (firstn 5 (all_rows result))) as [|first rest] eqn:E.
    - eexists. reflexivity.
    - apply render_complete.
      intros row col Hrow Hcol. apply get_In_keys.
      rewrite (Hkeys row Hrow). rewrite <- (Hkeys first); [exact Hcol|now left]. }
  destruct Htext as (text & Htext). exists text. split; [|exact Htext].
  apply (run_success self w user_question payload result t Hp Hcomplete Hok).
Qed.

(** X8: what [process_query] returns can always be shown: when each row of
    the database has one cell per column, the [results] of the success
    envelope render as a table (or as the "No results found." message) and
    [format_results_as_markdown_table] does not raise [KeyError], also when
    column names repeat. *)
Theorem results_of_a_query_render (self : TextToSQLEngine) (w : World)
    (user_question : string) (payload : PyDict.dict value)
    (result : CursorResult) (t : list event) :
  parsed_payload self w user_question payload ->
  complete_payload payload ->
  execution_succeeds w (field_of payload "query") result ->
  full_rows result ->
  exists results t' text,
    process_query self w user_question t = (Returns
      [ ("query", EValue (field_of payload "query"));
        ("rationale", EValue (field_of payload "rationale"));
        ("results", ETable results) ], t') /\
    format_results_as_markdown_table results = Rendered text.
Proof.
  intros Hp Hcomplete Hok Hfull.
  destruct (results_of_a_query_render_core self w user_question payload result
              t Hp Hcomplete Hok Hfull) as (text & Hrun & Htext).
  eexists _, _, text. split; [exact Hrun | exact Htext].
Qed.

Lemma results_of_a_query_render_witness :
  full_rows Scenarios.top_customers_cursor /\
  exists results t' text,
    process_query Scenarios.engine Scenarios.top_customers_world
      Scenarios.question [] = (Returns
      [ ("query", EValue (VStr Scenarios.top_customers_sql));
        ("rationale", EValue (VStr "Rank customers by lifetime value"));
        ("results", ETable results) ], t') /\
    format_results_as_markdown_table results = Rendered text.
Proof.
  assert (H : full_rows Scenarios.top_customers_cursor).
  { intros row Hrow. simpl in Hrow.
    repeat (destruct Hrow as [<-|Hrow]; [reflexivity|]). contradiction. }
  split; [exact H|].
  apply (results_of_a_query_render Scenarios.engine
           Scenarios.top_customers_world Scenarios.question
           [ ("query", VStr Scenarios.top_customers_sql);
             ("rationale", VStr "Rank customers by lifetime value") ]
           Scenarios.top_customers_cursor []).
  - apply scenario_parsed_payload. reflexivity.
  - split; reflexivity.
  - repeat split; reflexivity.
  - exact H.
Defined.

End MoreOfFormatters.

(** ** [wrap_sql] *)

Section WrapSqlFacts.
Import Formatters WrapSql.
Local Open Scope string_scope.

Lemma length_append (a b : string) :
  String.length (a ++ b) = (String.length a + String.length b)%nat.
Proof.
  induction a as [|c a IH]; simpl; [reflexivity | now rewrite IH].
Qed.

Lemma len_append (a b : string) : len (a ++ b) = (len a + len b)%Z.
Proof.
  unfold len. rewrite length_append. lia.
Qed.

Lemma no_space_app (a b : string) :
  no_space (a ++ b) = no_space a && no_space b.
Proof.
  induction a as [|c a IH]; simpl; [reflexivity|].
  rewrite IH. now rewrite andb_assoc.
Qed.

(** *** [split] *)

Lemma split_from_words (s : string) : forall word,
  no_space word = true -> Forall is_word (split_from s word).
Proof.
  induction s as [|c s IH]; intros word Hword; simpl.
  - destruct word; constructor; [|constructor].
    split; [discriminate | exact Hword].
  - destruct (is_space c) eqn:Hc.
    + destruct word.
      * now apply IH.
      * constructor; [split; [discriminate | exact Hword] | now apply IH].
    + apply IH. rewrite no_space_app, Hword. simpl. now rewrite Hc.
Qed.

Lemma split_words (s : string) : Forall is_word (split s).
Proof.
  now apply split_from_words.
Qed.

Lemma split_from_prefix (w : string) : forall s word,
  no_space w = true -> split_from (w ++ s) word = split_from s (word ++ w).
Proof.
  induction w as [|c w IH]; intros s word Hw; simpl.
  - now rewrite append_nil_r.
  - simpl in Hw. apply andb_prop in Hw. destruct Hw as [Hc Hw].
    apply negb_true_iff in Hc. rewrite Hc, IH by exact Hw.
    now rewrite append_assoc.
Qed.

Lemma split_word (w : string) : is_word w -> split w = [w].
Proof.
  intros [Hne Hw]. unfold split.
  rewrite <- (append_nil_r w) at 1.
  rewrite split_from_prefix by exact Hw. simpl.
  destruct w; [contradiction | reflexivity].
Qed.

Lemma split_from_separator (c : ascii) (b : string) :
  is_space c = true ->
  forall a word,
    split_from (a ++ String c b) word = (split_from a word ++ split b)%list.
Proof.
  intros Hc. induction a as [|x a IH]; intros word; simpl.
  - rewrite Hc. destruct word; reflexivity.
  - destruct (is_space x).
    + destruct word; simpl; now rewrite IH.
    + apply IH.
Qed.

Lemma split_join (c : ascii) (pieces : list string) :
  is_space c = true ->
  split (String.concat (String c "") pieces) = concat (map split pieces).
Proof.
  intros Hc. induction pieces as [|x [|y pieces] IH].
  - reflexivity.
  - simpl. now rewrite app_nil_r.
  - change (String.concat (String c "") (x :: y :: pieces))
      with (x ++ String c (String.concat (String c "") (y :: pieces))).
    unfold split at 1. rewrite split_from_separator by exact Hc.
    rewrite IH. reflexivity.
Qed.

Lemma split_each_word (ws : list string) :
  Forall is_word ws -> concat (map split ws) = ws.
Proof.
  induction 1 as [|w ws Hw _ IH]; simpl; [reflexivity|].
  now rewrite split_word, IH.
Qed.

(** *** The loop *)

Lemma wrap_step_same width st gst word :
  same_state st gst ->
  same_state (wrap_step width st word) (group_step width gst word).
Proof.
  intros (Hl & Hc & Hn). unfold wrap_step, group_step, same_state.
  rewrite Hl, Hc, Hn.
  destruct (group_length gst + len word + 1 <=? width)%Z; simpl.
  - auto.
  - rewrite map_app. auto.
Qed.

Lemma wrap_fold_same width words : forall st gst,
  same_state st gst ->
  same_state (fold_left (wrap_step width) words st)
    (fold_left (group_step width) words gst).
Proof.
  induction words as [|word words IH]; intros st gst H; simpl; [exact H|].
  apply IH. now apply wrap_step_same.
Qed.

Lemma wrap_lines_groups (sql : string) (width : Z) :
  wrap_lines sql width
  = map (String.concat " ") (wrap_groups (split sql) width).
Proof.
  unfold wrap_lines, wrap_groups.
  destruct (wrap_fold_same width (split sql) wrap_start group_start)
    as (Hl & Hc & _); [repeat split|].
  unfold wrap_finish, group_finish. rewrite Hl, Hc.
  destruct (group _); [reflexivity|].
  rewrite map_app. reflexivity.
Qed.

Lemma group_fold_concat width words : forall gst,
  concat (group_finish (fold_left (group_step width) words gst))
  = (concat (groups gst) ++ group gst ++ words)%list.
Proof.
  induction words as [|word words IH]; intros gst; simpl.
  - unfold group_finish. destruct (group gst) eqn:E.
    + now rewrite app_nil_r.
    + rewrite concat_app. simpl. now rewrite !app_nil_r.
  - rewrite IH. unfold group_step.
    destruct (group_length gst + len word + 1 <=? width)%Z; simpl.
    + now rewrite <- app_assoc.
    + rewrite concat_app. simpl. rewrite app_nil_r.
      now rewrite <- app_assoc.
Qed.

Lemma wrap_groups_concat (words : list string) (width : Z) :
  concat (wrap_groups words width) = words.
Proof.
  unfold wrap_groups. now rewrite group_fold_concat.
Qed.

Lemma split_wrap_sql (sql : string) (width : Z) :
  split (wrap_sql sql width) = split sql.
Proof.
  unfold wrap_sql, LF. rewrite split_join by reflexivity.
  rewrite wrap_lines_groups, map_map.
  pose proof (wrap_groups_concat (split sql) width) as Hconcat.
  pose proof (split_words sql) as Hwords.
  set (G := wrap_groups (split sql) width) in *.
  rewrite <- Hconcat in *. clear Hconcat.
  apply Forall_concat in Hwords.
  induction Hwords as [|g gs Hg _ IH]; simpl; [reflexivity|].
  rewrite IH. f_equal.
  rewrite (split_join " "%char g) by reflexivity.
  now apply split_each_word.
Qed.

(** X9: wrapping changes the whitespace only: the words of the wrapped
    text, in order, are the words of the query, for every width; a text
    without words wraps to the empty text. *)
Theorem wrap_sql_keeps_the_words (sql : string) (width : Z) :
  split (wrap_sql sql width) = split sql /\
  (split sql = [] -> wrap_sql sql width = "").
Proof.
  split; [apply split_wrap_sql|].
  intros Hnone. unfold wrap_sql, wrap_lines. now rewrite Hnone.
Qed.

(** X20: wrapping again starts from the words alone: a text that was
    wrapped at one width and is wrapped at another comes out as the
    original wrapped at that width; in particular wrapping twice at the same
    width changes nothing. *)
Theorem wrapping_again_is_wrapping_once (sql : string) (first second : Z) :
  wrap_sql (wrap_sql sql first) second = wrap_sql sql second /\
  wrap_sql (wrap_sql sql first) first = wrap_sql sql first.
Proof.
  unfold wrap_sql at 1 3 4 6. unfold wrap_lines.
  rewrite !split_wrap_sql. split; reflexivity.
Qed.

Lemma concat_snoc (sep : string) (ws : list string) (w : string) :
  ws <> [] ->
  String.concat sep (ws ++ [w]) = String.concat sep ws ++ sep ++ w.
Proof.
  induction ws as [|x [|y ws] IH]; intros Hne; [contradiction | reflexivity|].
  change (String.concat sep ((x :: y :: ws) ++ [w]))
    with (x ++ sep ++ String.concat sep ((y :: ws) ++ [w])).
  rewrite IH by discriminate.
  change (String.concat sep (x :: y :: ws))
    with (x ++ sep ++ String.concat sep (y :: ws)).
  now rewrite !append_assoc.
Qed.

Lemma filling_fits width gst :
  filling width gst -> line_fits width (group gst).
Proof.
  unfold filling, line_fits.
  intros [[-> _] | (_ & Hlen & [Hone | Hwidth])]; auto.
  right. right. lia.
Qed.

Lemma group_step_filling width gst word :
  filling width gst ->
  Forall (line_fits width) (groups gst) ->
  filling width (group_step width gst word) /\
  Forall (line_fits width) (groups (group_step width gst word)).
Proof.
  intros Hfill Hfits. unfold group_step.
  destruct (Z.leb_spec (group_length gst + len word + 1) width) as [Hle|Hgt];
    cbn [groups group group_length].
  - split; [|exact Hfits]. right. cbn [groups group group_length].
    split; [now destruct (group gst)|].
    split; [|right; lia].
    destruct Hfill as [[Hnil Hzero] | (Hne & Hlen & _)].
    + rewrite Hnil, Hzero. cbn [app String.concat]. lia.
    + rewrite concat_snoc by exact Hne. rewrite !len_append.
      change (len " ") with 1%Z. lia.
  - split.
    + right. cbn [groups group group_length String.concat].
      split; [discriminate|]. split; [lia | eauto].
    + apply Forall_app. split; [exact Hfits|].
      constructor; [now apply filling_fits | constructor].
Qed.

Lemma group_fold_fits width words : forall gst,
  filling width gst ->
  Forall (line_fits width) (groups gst) ->
  Forall (line_fits width)
    (group_finish (fold_left (group_step width) words gst)).
Proof.
  induction words as [|word words IH]; intros gst Hfill Hfits; simpl.
  - unfold group_finish. destruct (group gst) eqn:E; [exact Hfits|].
    apply Forall_app. split; [exact Hfits|].
    constructor; [|constructor]. rewrite <- E. now apply filling_fits.
  - destruct (group_step_filling width gst word Hfill Hfits) as [Hfill' Hfits'].
    now apply IH.
Qed.

(** X10: a line of the wrapped text is longer than the width only when it
    could not be cut: every line is within the width, or is a single word of
    the query, or is empty. *)
Theorem wrapped_lines_fit (sql : string) (width : Z) (line : string) :
  In line (wrap_lines sql width) ->
  (len line <= width)%Z \/ In line (split sql) \/ line = "".
Proof.
  rewrite wrap_lines_groups. intros Hin.
  apply in_map_iff in Hin. destruct Hin as (g & <- & Hg).
  assert (Hfits : Forall (line_fits width) (wrap_groups (split sql) width)).
  { apply group_fold_fits; [left; split; reflexivity | constructor]. }
  rewrite Forall_forall in Hfits.
  destruct (Hfits g Hg) as [-> | [(word & ->) | Hlen]].
  - right. right. reflexivity.
  - right. left. simpl.
    rewrite <- (wrap_groups_concat (split sql) width).
    apply in_concat. exists [word]. split; [exact Hg | now left].
  - left. exact Hlen.
Qed.

Lemma wrap_fold_grows width words : forall st,
  current_line st <> [] ->
  exists more last_line,
    wrap_finish (fold_left (wrap_step width) words st)
    = (lines st ++ more ++ [last_line])%list.
Proof.
  induction words as [|word words IH]; intros st Hne; simpl.
  - unfold wrap_finish. destruct (current_line st) eqn:E; [contradiction|].
    exists [], (String.concat " " (s :: l)). reflexivity.
  - destruct (IH (wrap_step width st word)) as (more & last_line & H).
    + unfold wrap_step.
      destruct (current_length st + len word + 1 <=? width)%Z; simpl;
        [now destruct (current_line st) | discriminate].
    + rewrite H. unfold wrap_step.
      destruct (current_length st + len word + 1 <=? width)%Z; simpl.
      * eauto.
      * exists (String.concat " " (current_line st) :: more), last_line.
        now rewrite <- app_assoc.
Qed.

(** X11: when the first word of the query does not leave room for the
    blank the loop counts after it ([len(word) + 1 > width]), the loop puts
    out the still empty line first: the wrapped text begins with a line
    break. *)
Theorem long_first_word_gives_blank_line (sql : string) (width : Z)
    (word : string) (others : list string) :
  split sql = word :: others ->
  (width < len word + 1)%Z ->
  exists rest, wrap_sql sql width = LF ++ rest.
Proof.
  intros Hsplit Hlong.
  assert (Hstep : wrap_step width wrap_start word
                  = {| lines := [""]; current_line := [word];
                       current_length := len word |}).
  { unfold wrap_step, wrap_start. cbn [current_length lines current_line].
    destruct (Z.leb_spec (0 + len word + 1) width) as [Hle|_];
      [lia | reflexivity]. }
  unfold wrap_sql, wrap_lines. rewrite Hsplit. cbn [fold_left].
  rewrite Hstep.
  destruct (wrap_fold_grows width others
              {| lines := [""]; current_line := [word];
                 current_length := len word |}) as (more & last_line & H);
    [discriminate|].
  rewrite H. cbn [lines app].
  destruct more as [|next more]; cbn [app String.concat append];
    eexists; reflexivity.
Qed.

Lemma wrap_sql_keeps_the_words_example :
  wrap_sql "SELECT name,  clv FROM customers" 12
  = "SELECT" ++ LF ++ "name, clv" ++ LF ++ "FROM" ++ LF ++ "customers".
Proof. vm_compute. reflexivity. Qed.

Lemma wrap_sql_keeps_the_words_witness :
  split "   " = [] /\ wrap_sql "   " 60 = "".
Proof.
  split; [reflexivity|].
  apply (wrap_sql_keeps_the_words "   " 60). reflexivity.
Defined.

Lemma long_first_word_gives_blank_line_witness :
  exists rest, wrap_sql "abcde fg" 5 = LF ++ rest.
Proof.
  apply (long_first_word_gives_blank_line "abcde fg" 5 "abcde" ["fg"]);
    [reflexivity | vm_compute; reflexivity].
Defined.

Lemma wrapped_lines_fit_witness :
  (len "cd ef" <= 5)%Z \/ In "cd ef" (split "ab cd ef") \/ "cd ef" = "".
Proof.
  apply (wrapped_lines_fit "ab cd ef" 5 "cd ef").
  vm_compute. auto.
Defined.

End WrapSqlFacts.

(** ** [session.py] *)

Section SessionFacts.
Import Session.

Lemma contains_get {V} (d : PyDict.dict V) (k : string) :
  PyDict.contains d k = false -> PyDict.get d k = None.
Proof.
  unfold PyDict.contains. now destruct (PyDict.get d k).
Qed.

Lemma get_history_add_same (self : SessionManager) (chat_id : string)
    (message : StoredMessage) :
  get_history (add_message self chat_id message) chat_id
  = get_history self chat_id ++ [message].
Proof.
  unfold get_history, add_message. simpl.
  destruct (PyDict.contains (sessions self) chat_id) eqn:Hc.
  - rewrite get_set_same. reflexivity.
  - rewrite !get_set_same. now rewrite (contains_get _ _ Hc).
Qed.

Lemma get_history_add_other (self : SessionManager)
    (chat_id other : string) (message : StoredMessage) :
  chat_id <> other ->
  get_history (add_message self chat_id message) other
  = get_history self other.
Proof.
  intros Hne. unfold get_history, add_message. simpl.
  rewrite get_set_other by exact Hne.
  destruct (PyDict.contains (sessions self) chat_id); [reflexivity|].
  now rewrite get_set_other by exact Hne.
Qed.

(** X12: a message that is added is the last of its session's history, and
    what the session held before is kept in order; the first message of an
    unknown session opens it: the history is then that message alone. *)
Theorem history_grows_at_the_end (self : SessionManager) (chat_id : string)
    (message : StoredMessage) :
  get_history (add_message self chat_id message) chat_id
  = get_history self chat_id ++ [message]
  /\
  (PyDict.contains (sessions self) chat_id = false ->
   get_history (add_message self chat_id message) chat_id = [message])
  /\
  PyDict.contains (sessions (add_message self chat_id message)) chat_id = true.
Proof.
  split; [apply get_history_add_same|]. split.
  - intros Hc. rewrite get_history_add_same.
    unfold get_history. now rewrite (contains_get _ _ Hc).
  - unfold add_message, PyDict.contains. simpl. now rewrite get_set_same.
Qed.

(** X13: adding a message to one session leaves the history of every other
    session as it was. *)
Theorem other_sessions_are_untouched (self : SessionManager)
    (chat_id other : string) (message : StoredMessage) :
  chat_id <> other ->
  get_history (add_message self chat_id message) other
  = get_history self other.
Proof.
  apply get_history_add_other.
Qed.

Lemma add_all_snoc (self : SessionManager)
    (log : list (string * StoredMessage)) (entry : string * StoredMessage) :
  add_all self (log ++ [entry])
  = add_message (add_all self log) (fst entry) (snd entry).
Proof.
  unfold add_all. now rewrite fold_left_app.
Qed.

Lemma get_history_add_all (self : SessionManager)
    (log : list (string * StoredMessage)) (chat_id : string) :
  get_history (add_all self log) chat_id
  = get_history self chat_id
    ++ map snd (filter (fun entry => String.eqb (fst entry) chat_id) log).
Proof.
  induction log as [|entry log IH] using rev_ind; simpl.
  - now rewrite app_nil_r.
  - rewrite add_all_snoc, filter_app, map_app. simpl.
    destruct (String.eqb (fst entry) chat_id) eqn:E.
    + apply String.eqb_eq in E. subst chat_id.
      rewrite get_history_add_same, IH. simpl. now rewrite <- app_assoc.
    + apply String.eqb_neq in E.
      rewrite get_history_add_other by exact E.
      rewrite IH. simpl. now rewrite app_nil_r.
Qed.

(** X19: the store is a faithful log: after any sequence of additions, in
    any interleaving of sessions, the history of a session is what it held
    before followed by exactly the messages added to that session, in the
    order in which they were added. *)
Theorem history_is_the_log_of_the_session (self : SessionManager)
    (log : list (string * StoredMessage)) (chat_id : string) :
  get_history (add_all self log) chat_id
  = get_history self chat_id
    ++ map snd (filter (fun entry => String.eqb (fst entry) chat_id) log).
Proof.
  apply get_history_add_all.
Qed.

Lemma history_grows_at_the_end_witness :
  PyDict.contains (sessions new) "a" = false /\
  get_history (add_message new "a" ("hello", true)) "a" = [("hello", true)].
Proof.
  split; [reflexivity|].
  apply (history_grows_at_the_end new "a" ("hello", true)). reflexivity.
Defined.

Lemma other_sessions_are_untouched_witness :
  get_history (add_message (add_message new "a" ("hello", true))
                 "b" ("hi", true)) "a"
  = [("hello", true)].
Proof.
  rewrite (other_sessions_are_untouched _ "b" "a" ("hi", true));
    [reflexivity | discriminate].
Defined.

End SessionFacts.

(** ** [api.py] and the task runner *)

Section ApiFacts.
Import Py Engine Contract Formatters WrapSql Session Api TaskRunner Further.
Local Open Scope string_scope.

Variable str_other : value -> string.
Variable sql_engine : TextToSQLEngine.
Variable w : World.

(** X14: what [chat] leaves in the store, with other requests in flight.
    The history of its session is what the session held before, then the
    user's message, then what the other requests added to this session while
    [chat] waited for the engine, then the answer when [chat] answers (nothing
    when it raises).  Every other session gains what the other requests
    added to it and nothing else.  With no other request in flight this is
    the sequential [chat]. *)
Theorem chat_records_the_exchange (session_manager : SessionManager)
    (body : NewChatMessage) (meanwhile : list (string * StoredMessage))
    (t : list event) :
  chat_interleaved str_other sql_engine w session_manager body [] t
  = chat str_other sql_engine w session_manager body t
  /\
  let '(by_chat, after, t') :=
    chat_interleaved str_other sql_engine w session_manager body meanwhile t in
  by_chat = fst (fst (chat str_other sql_engine w session_manager body t))
  /\
  t' = snd (chat str_other sql_engine w session_manager body t)
  /\
  Session.get_history after (session_id body)
  = (Session.get_history session_manager (session_id body)
     ++ [(message body, true)]
     ++ added_to (session_id body) meanwhile
     ++ answer_message by_chat)%list
  /\
  forall other, session_id body <> other ->
    Session.get_history after other
    = (Session.get_history session_manager other
       ++ added_to other meanwhile)%list.
Proof.
  split; [reflexivity|].
  unfold chat_interleaved, chat, answer_message, added_to.
  assert (Hsame : forall store,
             Session.get_history
               (add_all (add_message store (session_id body)
                           (message body, true)) meanwhile) (session_id body)
             = (Session.get_history store (session_id body)
                ++ [(message body, true)]
                ++ map snd (filter (fun entry =>
                                      String.eqb (fst entry) (session_id body))
                              meanwhile))%list).
  { intros store.
    rewrite get_history_add_all, get_history_add_same.
    now rewrite <- app_assoc. }
  assert (Hother : forall store other, session_id body <> other ->
             Session.get_history
               (add_all (add_message store (session_id body)
                           (message body, true)) meanwhile) other
             = (Session.get_history store other
                ++ map snd (filter (fun entry => String.eqb (fst entry) other)
                              meanwhile))%list).
  { intros store other Hne.
    rewrite get_history_add_all. now rewrite get_history_add_other. }
  destruct (process_query sql_engine w (message body) t) as [[sql_result|e] t'].
  - destruct (format_response str_other sql_result) as [r|e|key|];
      (split; [reflexivity|]); (split; [reflexivity|]).
    + split.
      * rewrite get_history_add_same, Hsame.
        now rewrite <- !app_assoc.
      * intros other Hne.
        rewrite get_history_add_other by exact Hne. now apply Hother.
    + split; [rewrite Hsame; now rewrite app_nil_r | exact (Hother _)].
    + split; [rewrite Hsame; now rewrite app_nil_r | exact (Hother _)].
    + split; [rewrite Hsame; now rewrite app_nil_r | exact (Hother _)].
  - (split; [reflexivity|]); (split; [reflexivity|]).
    split; [rewrite Hsame; now rewrite app_nil_r | exact (Hother _)].
Qed.

(** X15: when the engine returns an error envelope, [chat] answers with
    "I encountered an error: " and the engine's message, and gives no
    sources. *)
Theorem chat_reports_engine_errors (session_manager : SessionManager)
    (body : NewChatMessage) (t t' : list event) (msg : string) :
  process_query sql_engine w (message body) t
  = (Returns [("error", EText msg)], t') ->
  fst (fst (chat str_other sql_engine w session_manager body t))
  = Responds {| response := "I encountered an error: " ++ msg;
                sources := [] |}.
Proof.
  intros Hrun. unfold chat. rewrite Hrun. reflexivity.
Qed.

(** X16: when the statement is a string and executes, and every row has
    one cell per column, [chat] answers: the response shows the statement
    wrapped at 60 columns inside a code fence, the rationale and the
    rendered table; [sources] holds the statement as the model gave it, not
    wrapped. *)
Theorem chat_answers_with_the_query (session_manager : SessionManager)
    (body : NewChatMessage) (t : list event)
    (payload : PyDict.dict value) (query : string) (result : CursorResult) :
  parsed_payload sql_engine w (message body) payload ->
  complete_payload payload ->
  field_of payload "query" = VStr query ->
  execution_succeeds w (VStr query) result ->
  full_rows result ->
  exists results_text,
    format_results_as_markdown_table
      (map (PyDict.of_zip (column_keys result)) (firstn 5 (all_rows result)))
    = Rendered results_text /\
    fst (fst (chat str_other sql_engine w session_manager body t))
    = Responds
        {| response :=
             "Based on your question, I ran the following SQL query:" ++ LF
             ++ "```sql" ++ LF ++ wrap_sql query 60 ++ LF ++ "```" ++ LF ++ LF
             ++ "**Rationale:** "
             ++ format_value str_other (field_of payload "rationale") ++ LF
             ++ results_text;
           sources := [query] |}.
Proof.
  intros Hp Hcomplete Hquery Hok Hfull.
  rewrite <- Hquery in Hok.
  destruct (results_of_a_query_render_core sql_engine w (message body) payload
              result t Hp Hcomplete Hok Hfull) as (text & Hrun & Htext).
  exists text. split; [exact Htext|].
  unfold chat. rewrite Hrun.
  unfold format_response, success_response, success_envelope.
  remember (map (PyDict.of_zip (column_keys result))
              (firstn 5 (all_rows result))) as rows eqn:Erows.
  simpl. rewrite Htext, Hquery. reflexivity.
Qed.

(** X17: the task runner and the chat endpoint end alike on the same
    question: the runner's [output] is the endpoint's [response], its
    [error] is the message the endpoint wraps, it names the engine's model,
    and what one raises the other raises. *)
Theorem task_runner_agrees_with_chat (session_manager : SessionManager)
    (body : NewChatMessage) (t : list event) :
  same_ending
    (fst (fst (chat str_other sql_engine w session_manager body t)))
    (fst (run_task str_other sql_engine w (message body) t))
    (model sql_engine)
  /\
  snd (chat str_other sql_engine w session_manager body t)
  = snd (run_task str_other sql_engine w (message body) t).
Proof.
  unfold chat, run_task, format_response, success_response.
  destruct (process_query sql_engine w (message body) t) as [[sql_result|e] t'];
    [|split; reflexivity].
  destruct (PyDict.contains sql_result "error").
  - destruct (PyDict.get sql_result "error") as [[error|v|rows]|];
      simpl; auto.
  - destruct (PyDict.get sql_result "results") as [[s|v|results]|];
      simpl; auto.
    destruct (format_results_as_markdown_table results) as [text|key];
      simpl; auto.
    destruct (PyDict.get sql_result "query") as [[s|[[| | | |query]| |]|rows]|];
      simpl; auto.
    destruct (PyDict.get sql_result "rationale") as [[s|v|rows]|];
      simpl; eauto 6.
Qed.

(** X21: the ways [chat] can fail.  Where the database line refuses every
    statement that is no string, as [sqlalchemy.text] does, [chat] responds
    unless (a) a collaborator raised something that is no [Exception], which
    [process_query] let through and [chat] raises again, or (b) the model's
    payload was complete, the statement ran and some row has not one cell
    per column, so that the table cannot be rendered and [chat] raises
    [KeyError].  In particular an error envelope always becomes a response,
    and [wrap_sql] is never given a statement that is no string. *)
Theorem chat_fails_only_in_two_ways (session_manager : SessionManager)
    (body : NewChatMessage) (t : list event) :
  text_refuses_non_strings w ->
  chat_ends_as sql_engine w (message body)
    (fst (fst (chat str_other sql_engine w session_manager body t))).
Proof.
  intros Htext.
  destruct (run_classified sql_engine w (message body) t) as (_ & _ & Hend).
  unfold chat.
  destruct (process_query sql_engine w (message body) t) as [outcome t'].
  simpl in Hend.
  inversion Hend as [msg Hout | payload result Hp Hc Hok Hout | e He Hraised Hout];
    subst outcome; simpl.
  - exact I.
  - unfold format_response, success_response, success_envelope.
    remember (map (PyDict.of_zip (column_keys result))
                (firstn 5 (all_rows result))) as rows eqn:Erows.
    simpl.
    destruct (format_results_as_markdown_table rows) as [text|key] eqn:Hfmt;
      simpl.
    + destruct (field_of payload "query") as [[| | | |query]| |] eqn:Hq;
        simpl; try exact I;
        exfalso;
        destruct (Htext (field_of payload "query")) as (e & He);
        try (rewrite Hq; exact I);
        destruct Hok as (_ & Hexec & _); rewrite Hq in *; congruence.
    + exists payload, result. split; [exact Hp|]. split; [exact Hc|].
      split; [exact Hok|].
      intros Hfull.
      destruct (results_of_a_query_render_core sql_engine w (message body)
                  payload result t Hp Hc Hok Hfull) as (text & _ & Htext').
      rewrite <- Erows in Htext'. congruence.
  - split; assumption.
Qed.

End ApiFacts.

Section ApiRuns.
Import Py Engine Contract Formatters WrapSql Session Api TaskRunner Further.
Import Scenarios.
Local Open Scope string_scope.

Lemma chat_records_the_exchange_witness :
  "s1" <> "s2" /\
  let after :=
    snd (fst (chat_interleaved (fun _ => "") engine timeout_world Session.new
                {| message := question; session_id := "s1" |}
                second_exchange [])) in
  Session.get_history after "s1"
  = [ (question, true);
      ("And by orders?", true);
      ("I encountered an error: no answer", false);
      ("I encountered an error: OpenAI API call failed: Request timed out.",
       false) ]
  /\
  Session.get_history after "s2" = [("Hello", true)].
Proof.
  assert (Hne : "s1" <> "s2") by discriminate.
  split; [exact Hne|].
  pose proof (proj2 (chat_records_the_exchange (fun _ => "") engine
                       timeout_world Session.new
                       {| message := question; session_id := "s1" |}
                       second_exchange [])) as H.
  destruct H as (_ & _ & Hsame & Hother).
  cbv zeta. split.
  - exact Hsame.
  - exact (Hother "s2" Hne).
Defined.

Lemma scenario_text_refuses_non_strings completion :
  text_refuses_non_strings (world completion).
Proof.
  intros v Hv. unfold world. simpl. unfold Scenarios.connection_execute.
  destruct v as [[| | | |statement]| |]; try contradiction; eauto.
Defined.

Lemma chat_fails_only_in_two_ways_witness :
  text_refuses_non_strings cancelled_world /\
  fst (fst (chat (fun _ => "") engine cancelled_world Session.new
              {| message := question; session_id := "s1" |} []))
  = RaisesExn CancelledError /\
  isinstance_Exception CancelledError = false /\
  raised_by_collaborator cancelled_world CancelledError.
Proof.
  assert (H : text_refuses_non_strings cancelled_world)
    by apply scenario_text_refuses_non_strings.
  split; [exact H|].
  split; [reflexivity|].
  exact (chat_fails_only_in_two_ways (fun _ => "") engine cancelled_world
           Session.new {| message := question; session_id := "s1" |} [] H).
Defined.

Lemma chat_reports_engine_errors_witness :
  fst (fst (chat (fun _ => "") engine timeout_world Session.new
              {| message := question; session_id := "s1" |} []))
  = Responds
      {| response :=
           "I encountered an error: OpenAI API call failed: Request timed out.";
         sources := [] |}.
Proof.
  exact (chat_reports_engine_errors (fun _ => "") engine timeout_world
           Session.new {| message := question; session_id := "s1" |} [] _
           "OpenAI API call failed: Request timed out." run_timeout).
Defined.

Lemma chat_answers_with_the_query_witness :
  exists results_text,
    format_results_as_markdown_table
      (map (PyDict.of_zip ["name"; "clv"]) (firstn 5 customers_by_clv))
    = Rendered results_text /\
    fst (fst (chat (fun _ => "") engine top_customers_world Session.new
                {| message := question; session_id := "s1" |} []))
    = Responds
        {| response :=
             "Based on your question, I ran the following SQL query:" ++ LF
             ++ "```sql" ++ LF ++ wrap_sql top_customers_sql 60 ++ LF
             ++ "```" ++ LF ++ LF
             ++ "**Rationale:** " ++ "Rank customers by lifetime value" ++ LF
             ++ results_text;
           sources := [top_customers_sql] |}.
Proof.
  apply (chat_answers_with_the_query (fun _ => "") engine top_customers_world
           Session.new {| message := question; session_id := "s1" |} []
           [ ("query", VStr top_customers_sql);
             ("rationale", VStr "Rank customers by lifetime value") ]
           top_customers_sql top_customers_cursor).
  - apply scenario_parsed_payload. reflexivity.
  - split; reflexivity.
  - reflexivity.
  - repeat split; reflexivity.
  - intros row Hrow. simpl in Hrow.
    repeat (destruct Hrow as [<-|Hrow]; [reflexivity|]). contradiction.
Defined.

(** The answer to the first scenario, as the endpoint gives it. *)
Example chat_top_customers :
  fst (fst (chat (fun _ => "") engine top_customers_world Session.new
              {| message := question; session_id := "s1" |} []))
  = Responds
      {| response :=
           "Based on your question, I ran the following SQL query:" ++ LF
           ++ "```sql" ++ LF
           ++ "SELECT name, clv FROM customers ORDER BY clv DESC" ++ LF
           ++ "```" ++ LF ++ LF
           ++ "**Rationale:** Rank customers by lifetime value" ++ LF
           ++ LF ++ "**Results:**" ++ LF
           ++ "| name | clv |" ++ LF
           ++ "| --- | --- |" ++ LF
           ++ "| Ada | 10,000.00 |" ++ LF
           ++ "| Ben | 9,000.50 |" ++ LF
           ++ "| Cyd | 7,500.00 |" ++ LF
           ++ "| Dee | 5,000.25 |" ++ LF
           ++ "| Eli | 4,000.00 |" ++ LF;
         sources := ["SELECT name, clv FROM customers ORDER BY clv DESC"] |}.
Proof. vm_compute. reflexivity. Qed.

End ApiRuns.

(** ** The module body of [api.py] *)

(** X18: the module body of [api.py] never gets as far as the session
    store.  Without an API key (unset or empty) the engine's constructor
    raises [ValueError] before the database URL is looked at; when
    [create_engine] refuses the URL its error leaves; and when the engine is
    built, the call [init_tracing(sql_engine)] raises [TypeError], because
    [init_tracing] is defined without parameters. *)
Theorem api_module_body_always_raises
    (environ : string -> option string)
    (create_engine : string -> Py.result unit) (t : list Engine.event) :
  fst (Api.module_body environ create_engine t)
  = match environ "OPENAI_API_KEY" with
    | None | Some EmptyString =>
        Py.Raises
          (Py.ValueError "OPENAI_API_KEY environment variable not set")
    | Some _ =>
        match create_engine
                (Engine.getenv_default environ "DATABASE_PATH"
                   "sqlite:///data/windforest.db") with
        | Py.Raises e => Py.Raises e
        | Py.Returns _ =>
            Py.Raises
              (Py.mkExn Py.KException "TypeError"
                 "init_tracing() takes 0 positional arguments but 1 was given")
        end
    end
  /\
  (forall loaded, fst (Api.module_body environ create_engine t)
                  <> Py.Returns loaded)
  /\
  snd (Api.module_body environ create_engine t) = t.
Proof.
  unfold Api.module_body, Engine.init, Engine._load_schema,
    Py.bind, Py.lift, Py.ret, Py.raise.
  destruct (environ "OPENAI_API_KEY") as [[|c key]|]; simpl;
    try (repeat split; discriminate).
  destruct (create_engine _) as [[]|e]; simpl; repeat split; discriminate.
Qed.
